(** * binary-beasts-backend: the Pointing and Tracking concepts

    A shallow embedding of [server/concepts/pointing.ts] (the
    [PointingConcept] with verified-post tracking and the
    [TrackingConcept]) and of the properties its specification states.

    - JavaScript [number]s are IEEE-754 binary64 values: they are modelled
      by Rocq's primitive floats, so that [NaN], comparisons and rounding
      behave as they do at run time.
    - Every method of a concept is a computation in a small state and
      exception monad over the concept's document collection.
    - [Array.prototype.find] hands out a reference into the array; the
      mutation of the found task is an update of the list at the index
      that [find] stopped at. *)

From Stdlib Require Import ZArith String Uint63.
From Stdlib Require Import Floats.PrimFloat Floats.SpecFloat Floats.FloatOps
  Floats.FloatAxioms.
From stdpp Require Import base option list gmap strings.

Local Open Scope Z_scope.
Local Open Scope string_scope.
Local Open Scope list_scope.

(** ** Values *)

(** MongoDB object identifiers (12 bytes) as natural numbers. *)
Abbreviation ObjectId := N.

(** A JavaScript [number]. *)
Abbreviation number := PrimFloat.float.

Module JS.

(** The number of elements of an array, as a [number] (exact: an array
    has fewer than 2^32 elements). *)
Definition of_length {A} (l : list A) : number :=
  PrimFloat.of_uint63 (Uint63.of_Z (Z.of_nat (length l))).

(** An integer of magnitude below 2^53 as a [number]; [neg] chooses the
    sign of a zero result. *)
Definition of_Z (neg : bool) (z : Z) : number :=
  match z with
  | Z0 => if neg then PrimFloat.opp PrimFloat.zero else PrimFloat.zero
  | Zpos _ => PrimFloat.of_uint63 (Uint63.of_Z z)
  | Zneg _ => PrimFloat.opp (PrimFloat.of_uint63 (Uint63.of_Z (- z)))
  end.

(** [Math.round]: the integral number closest to [x], a tie going to
    the one closer to +infinity; NaN, the infinities and the zeros are
    returned as they are, and so is every [x] that is integral already.
    A finite [x] is [±m * 2^e]; for [e < 0] the result is
    [floor (x + 1/2)], computed exactly on integers. *)
Definition Math_round (x : number) : number :=
  match Prim2SF x with
  | S754_finite s m e =>
      if (0 <=? e)%Z then x
      else
        let d := 2 ^ (- e) in
        let n := if s then Zneg m else Zpos m in
        of_Z s ((2 * n + d) `div` (2 * d))
  | _ => x
  end.

(** [a || b] on strings held in a nullable variable. *)
Definition or_else (a : option string) (b : string) : string :=
  match a with
  | Some s => if bool_decide (s = "") then b else s
  | None => b
  end.

End JS.

(** ** Errors and the monad of a concept method *)

Inductive Error : Type :=
| NotFoundError (what : string) (who : ObjectId)
| NotAllowedError (msg : string)
| InvalidPointAwardError (who : ObjectId) (award : number) (post : ObjectId)
| ExistingUserPointsError (who : ObjectId).

Inductive result (A : Type) : Type :=
| Ok (a : A)
| Throw (e : Error).
Arguments Ok {A} a.
Arguments Throw {A} e.

(** A method reads and writes the collection and either returns or
    throws; what was written before a throw stays written. *)
Definition M (St A : Type) : Type := St → result A * St.

Definition throw {St A} (e : Error) : M St A := λ s, (Throw e, s).

#[global] Instance M_ret {St} : MRet (M St) := λ A a s, (Ok a, s).
#[global] Instance M_bind {St} : MBind (M St) := λ A B k m s,
  match m s with
  | (Ok a, s') => k a s'
  | (Throw e, s') => (Throw e, s')
  end.

Definition is_Throw {A} (r : result A) : bool :=
  match r with Throw _ => true | Ok _ => false end.

(** ** The document collection *)

(** [framework/doc]'s [DocCollection] is not among the sources; both
    concepts only ever filter by user. The collection is a finite map
    from the user's identifier to the user's one document. *)
Module DocCollection.
Section Collection.
Context {Doc : Type}.

(** Modelled from the spec: [findByUser (user) -> record | absent]. *)
Definition readOne (u : ObjectId) : M (gmap ObjectId Doc) (option Doc) :=
  λ s, (Ok (s !! u), s).

(** Modelled from the spec: [create (user)] persists the record; the
    concepts call it only for a user that [readOne] has just reported
    absent. *)
Definition createOne (u : ObjectId) (d : Doc) : M (gmap ObjectId Doc) unit :=
  λ s, (Ok tt, <[u := d]> s).

(** Modelled from the spec: [update (user, partialFields)] overwrites
    the given fields of the user's record; it performs no validation and
    does not fail, so for an absent record it changes nothing. *)
Definition partialUpdateOne (u : ObjectId) (upd : Doc → Doc)
  : M (gmap ObjectId Doc) unit :=
  λ s, (Ok tt, alter upd u s).

(** Modelled from the spec: removal of the user's record, used by the
    Pointing concept only. *)
Definition deleteOne (u : ObjectId) : M (gmap ObjectId Doc) unit :=
  λ s, (Ok tt, delete u s).

End Collection.
End DocCollection.

(** ** PointingConcept

    The file holds two snapshots of this class; this is the one that
    tracks verified posts, which supersedes the other. *)

Module Pointing.
Import DocCollection.

Record PointDoc : Type := mkPointDoc {
  user : ObjectId;
  points : number;
  verifiedPosts : list ObjectId;
}.

Abbreviation Points := (gmap ObjectId PointDoc).

(** [stringArr.includes(verifiedPost.toString())] *)
Definition includes (posts : list ObjectId) (p : ObjectId) : bool :=
  bool_decide (p ∈ posts).

Definition create (u : ObjectId) : M Points (option PointDoc) :=
  checkExists ← readOne u;
  match checkExists with
  | Some _ => throw (ExistingUserPointsError u)
  | None =>
      createOne u (mkPointDoc u PrimFloat.zero []);;
      readOne u
  end.

Definition delete (u : ObjectId) : M Points string :=
  deleteOne u;;
  mret "Points Deleted".

Definition getPoints (u : ObjectId) : M Points PointDoc :=
  r ← readOne u;
  match r with
  | None => throw (NotFoundError "Points" u)
  | Some d => mret d
  end.

(** The first half of [awardPoints]: the validity check of the verified
    post, which returns the in-memory [verifiedPosts] after the [push]
    or the [filter]. *)
Definition checkVerifiedPost (u : ObjectId) (pointDoc : PointDoc)
    (amount : number) (verifiedPost : option ObjectId)
  : M Points (list ObjectId) :=
  match verifiedPost with
  | Some post =>
      let stringArr := verifiedPosts pointDoc in
      if PrimFloat.leb PrimFloat.zero amount && negb (includes stringArr post)
      then mret (verifiedPosts pointDoc ++ [post])
      else if PrimFloat.ltb amount PrimFloat.zero && includes stringArr post
      then mret (filter (λ e, e ≠ post) (verifiedPosts pointDoc))
      else throw (InvalidPointAwardError u amount post)
  | None => mret (verifiedPosts pointDoc)
  end.

Definition awardPoints (u : ObjectId) (amount : number)
    (verifiedPost : option ObjectId) : M Points (option PointDoc) :=
  r ← readOne u;
  match r with
  | Some pointDoc =>
      posts ← checkVerifiedPost u pointDoc amount verifiedPost;
      (if PrimFloat.ltb (PrimFloat.add (points pointDoc) amount) PrimFloat.zero
       then throw (NotAllowedError "resulting amount would be less than 0")
       else
         partialUpdateOne u (λ d,
           mkPointDoc (user d) (PrimFloat.add (points pointDoc) amount) posts));;
      readOne u
  | None => throw (NotFoundError "Points" u)
  end.

(** The error condition as the specification words it, cases (a), (b)
    and (c), for a user whose points document is [d]. *)
Definition spec_error_condition (d : PointDoc) (amount : number)
    (verifiedPost : option ObjectId) : Prop :=
  (∃ post, verifiedPost = Some post
           ∧ PrimFloat.leb PrimFloat.zero amount = true
           ∧ post ∈ verifiedPosts d)
  ∨ (∃ post, verifiedPost = Some post
             ∧ PrimFloat.ltb amount PrimFloat.zero = true
             ∧ post ∉ verifiedPosts d)
  ∨ PrimFloat.ltb (PrimFloat.add (points d) amount) PrimFloat.zero = true.

(** A user with five points and one verified post. *)
Definition sample_doc : PointDoc := mkPointDoc 7%N 5%float [3%N].
Definition sample_points : Points := {[ 7%N := sample_doc ]}.

End Pointing.

(** ** TrackingConcept *)

Module Tracking.
Import DocCollection.

Inductive Difficulty : Type := Difficult | JustRight | Easy.

#[global] Instance Difficulty_eq_dec : EqDecision Difficulty.
Proof. solve_decision. Defined.

Record Task : Type := mkTask {
  name : string;
  description : string;
  reps : number;
  sets : option number;
  weight : option number;
  completed : bool;
  previousDifficulty : Difficulty;
}.

(** A [Date] in local time: the number of the calendar day, counted from
    1 January 1970, and the time elapsed within that day. *)
Record Date : Type := mkDate {
  dayNumber : Z;
  timeOfDay : Z;
}.

Record ProgressEntry : Type := mkProgressEntry {
  weekStart : Date;
  completedTasks : list Task;
}.

Record TrackingDoc : Type := mkTrackingDoc {
  user : ObjectId;
  userGoal : string;
  weeklyTasks : list Task;
  progressHistory : list ProgressEntry;
}.

Abbreviation Trackings := (gmap ObjectId TrackingDoc).

(** Assignments to one field of a task, and the partial updates of a
    document. *)
Definition set_reps (v : number) (t : Task) : Task :=
  mkTask (name t) (description t) v (sets t) (weight t) (completed t)
         (previousDifficulty t).
Definition set_sets (v : number) (t : Task) : Task :=
  mkTask (name t) (description t) (reps t) (Some v) (weight t) (completed t)
         (previousDifficulty t).
Definition set_weight (v : number) (t : Task) : Task :=
  mkTask (name t) (description t) (reps t) (sets t) (Some v) (completed t)
         (previousDifficulty t).
Definition set_completed (v : bool) (t : Task) : Task :=
  mkTask (name t) (description t) (reps t) (sets t) (weight t) v
         (previousDifficulty t).
Definition set_previousDifficulty (v : Difficulty) (t : Task) : Task :=
  mkTask (name t) (description t) (reps t) (sets t) (weight t) (completed t) v.

Definition set_userGoal (g : string) (d : TrackingDoc) : TrackingDoc :=
  mkTrackingDoc (user d) g (weeklyTasks d) (progressHistory d).
Definition set_weeklyTasks (l : list Task) (d : TrackingDoc) : TrackingDoc :=
  mkTrackingDoc (user d) (userGoal d) l (progressHistory d).
Definition set_progressHistory (h : list ProgressEntry) (d : TrackingDoc)
  : TrackingDoc :=
  mkTrackingDoc (user d) (userGoal d) (weeklyTasks d) h.

(** [if (v !== undefined) task.f = v] *)
Definition assign_if_defined {A} (setter : A → Task → Task) (v : option A)
    (t : Task) : Task :=
  match v with
  | Some x => setter x t
  | None => t
  end.

(** [weeklyTasks.find((task) => task.name === taskName)]: the first task
    of that name, with its position in the array. *)
Definition find_task (taskName : string) (l : list Task) : option (nat * Task) :=
  list_find (λ t, name t = taskName) l.

Definition createTrackingDoc (u : ObjectId) : M Trackings (option TrackingDoc) :=
  trackingDoc ← readOne u;
  match trackingDoc with
  | Some d => mret (Some d)
  | None =>
      createOne u (mkTrackingDoc u "" [] []);;
      readOne u
  end.

Definition getTrackingDoc (u : ObjectId) : M Trackings TrackingDoc :=
  trackingDoc ← readOne u;
  match trackingDoc with
  | None => throw (NotFoundError "Tracking document" u)
  | Some d => mret d
  end.

Definition createTask (u : ObjectId) (taskName taskDescription : string)
    (reps0 : number) (sets0 startingWeight : option number)
  : M Trackings (option (string * Task)) :=
  trackingDoc ← createTrackingDoc u;
  match trackingDoc with
  | Some d =>
      let newTask :=
        mkTask taskName taskDescription reps0 sets0 startingWeight false
               JustRight in
      partialUpdateOne u (set_weeklyTasks (weeklyTasks d ++ [newTask]));;
      mret (Some ("Task successfully created!", newTask))
  | None => mret None
  end.

Definition updateTask (u : ObjectId) (taskName : string)
    (reps0 sets0 weight0 : option number) : M Trackings (string * Task) :=
  trackingDoc ← getTrackingDoc u;
  match find_task taskName (weeklyTasks trackingDoc) with
  | None => throw (NotFoundError ("Task " +:+ taskName) u)
  | Some (i, task) =>
      let task := assign_if_defined set_reps reps0 task in
      let task := assign_if_defined set_sets sets0 task in
      let task := assign_if_defined set_weight weight0 task in
      partialUpdateOne u
        (set_weeklyTasks (<[i := task]> (weeklyTasks trackingDoc)));;
      mret ("Task successfully updated!", task)
  end.

(** The three conditional assignments of [updateTask], in one. *)
Definition updated (reps0 sets0 weight0 : option number) (t : Task) : Task :=
  assign_if_defined set_weight weight0
    (assign_if_defined set_sets sets0 (assign_if_defined set_reps reps0 t)).

Definition deleteTask (u : ObjectId) (taskName : string) : M Trackings string :=
  trackingDoc ← getTrackingDoc u;
  partialUpdateOne u
    (set_weeklyTasks (filter (λ t, name t ≠ taskName) (weeklyTasks trackingDoc)));;
  mret "Task successfully deleted!".

Definition setUserGoal (u : ObjectId) (goal : string)
  : M Trackings (string * string) :=
  partialUpdateOne u (set_userGoal goal);;
  mret ("User goal successfully updated!", goal).

Definition setCompleted (u : ObjectId) (taskName : string) : M Trackings string :=
  trackingDoc ← getTrackingDoc u;
  match find_task taskName (weeklyTasks trackingDoc) with
  | None => throw (NotFoundError ("Task " +:+ taskName) u)
  | Some (i, task) =>
      let task := set_completed (negb (completed task)) task in
      partialUpdateOne u
        (set_weeklyTasks (<[i := task]> (weeklyTasks trackingDoc)));;
      mret ("Task '" +:+ taskName +:+ "' marked as "
            +:+ (if completed task then "completed" else "incomplete") +:+ "!")
  end.

Definition isCompleted (u : ObjectId) (taskName : string) : M Trackings bool :=
  trackingDoc ← getTrackingDoc u;
  match find_task taskName (weeklyTasks trackingDoc) with
  | None => throw (NotFoundError ("Task " +:+ taskName) u)
  | Some (_, task) => mret (completed task)
  end.

Definition tasksCompleted (u : ObjectId) : M Trackings bool :=
  trackingDoc ← getTrackingDoc u;
  mret (forallb completed (weeklyTasks trackingDoc)).

(** The nested conditional of [promptChange] that sets [suggestion]. *)
Definition suggestion_for (previous current : Difficulty) (goal : string)
  : option string :=
  if bool_decide (previous = Difficult) && bool_decide (current = Difficult)
  then
    if bool_decide (goal = "muscle") || bool_decide (goal = "endurance")
    then Some "Consider decreasing the weight by 5 lbs."
    else if bool_decide (goal = "strength")
    then Some "Consider decreasing the reps by 2."
    else None
  else if bool_decide (previous = Easy) && bool_decide (current = Easy)
  then
    if bool_decide (goal = "strength")
    then Some "Consider increasing the weight."
    else Some "Consider increasing the reps."
  else None.

Definition promptChange (u : ObjectId) (taskName : string)
    (currentDifficulty : Difficulty) : M Trackings (string * Task) :=
  trackingDoc ← getTrackingDoc u;
  match find_task taskName (weeklyTasks trackingDoc) with
  | None => throw (NotFoundError ("Task " +:+ taskName) u)
  | Some (i, task) =>
      let goal := userGoal trackingDoc in
      let suggestion :=
        suggestion_for (previousDifficulty task) currentDifficulty goal in
      let task := set_previousDifficulty currentDifficulty task in
      partialUpdateOne u
        (set_weeklyTasks (<[i := task]> (weeklyTasks trackingDoc)));;
      mret (JS.or_else suggestion "No changes suggested!", task)
  end.

(** [getDay]: 0 is Sunday; 1 January 1970 was a Thursday. *)
Definition getDay (date : Date) : Z := (dayNumber date + 4) `mod` 7.

(** [setDate (getDate () - day)] moves the date [day] calendar days back
    and keeps the time of day. *)
Definition getStartOfWeek (date : Date) : Date :=
  let day := getDay date in
  mkDate (dayNumber date - day) (timeOfDay date).

(** [now] is the value of [new Date ()]. *)
Definition resetWeeklyTasks (now : Date) (u : ObjectId) : M Trackings string :=
  trackingDoc ← getTrackingDoc u;
  let completedTasks := filter (λ t, completed t) (weeklyTasks trackingDoc) in
  let history :=
    (progressHistory trackingDoc
       ++ [mkProgressEntry (getStartOfWeek now) completedTasks]) in
  let tasks := set_completed false <$> weeklyTasks trackingDoc in
  partialUpdateOne u (λ d, set_progressHistory history (set_weeklyTasks tasks d));;
  mret "Weekly tasks reset and progress archived!".

Definition getProgressHistory (u : ObjectId) : M Trackings (list ProgressEntry) :=
  trackingDoc ← getTrackingDoc u;
  mret (progressHistory trackingDoc).

Definition getTasks (u : ObjectId) : M Trackings (list Task) :=
  trackingDoc ← getTrackingDoc u;
  mret (weeklyTasks trackingDoc).

Definition getCompletedPercentage (u : ObjectId) : M Trackings number :=
  trackingDoc ← getTrackingDoc u;
  if bool_decide (length (weeklyTasks trackingDoc) = 0%nat)
  then mret 0%float
  else
    let completedTasks :=
      JS.of_length (filter (λ t, completed t) (weeklyTasks trackingDoc)) in
    let totalTasks := JS.of_length (weeklyTasks trackingDoc) in
    let percentage :=
      PrimFloat.mul (PrimFloat.div completedTasks totalTasks) 100%float in
    mret (PrimFloat.div
            (JS.Math_round (PrimFloat.mul percentage 100%float)) 100%float).

(** *** The operations of the concept, as data

    One constructor per public method; [exec] runs the method and keeps
    the collection it leaves behind. *)
Inductive Op : Type :=
| CreateTask (u : ObjectId) (taskName taskDescription : string)
    (reps0 : number) (sets0 startingWeight : option number)
| UpdateTask (u : ObjectId) (taskName : string) (reps0 sets0 weight0 : option number)
| DeleteTask (u : ObjectId) (taskName : string)
| SetUserGoal (u : ObjectId) (goal : string)
| SetCompleted (u : ObjectId) (taskName : string)
| IsCompleted (u : ObjectId) (taskName : string)
| TasksCompleted (u : ObjectId)
| PromptChange (u : ObjectId) (taskName : string) (currentDifficulty : Difficulty)
| ResetWeeklyTasks (now : Date) (u : ObjectId)
| GetProgressHistory (u : ObjectId)
| CreateTrackingDoc (u : ObjectId)
| GetTasks (u : ObjectId)
| GetCompletedPercentage (u : ObjectId).

Definition exec (op : Op) (s : Trackings) : Trackings :=
  match op with
  | CreateTask u n d r se w => snd (createTask u n d r se w s)
  | UpdateTask u n r se w => snd (updateTask u n r se w s)
  | DeleteTask u n => snd (deleteTask u n s)
  | SetUserGoal u g => snd (setUserGoal u g s)
  | SetCompleted u n => snd (setCompleted u n s)
  | IsCompleted u n => snd (isCompleted u n s)
  | TasksCompleted u => snd (tasksCompleted u s)
  | PromptChange u n c => snd (promptChange u n c s)
  | ResetWeeklyTasks now u => snd (resetWeeklyTasks now u s)
  | GetProgressHistory u => snd (getProgressHistory u s)
  | CreateTrackingDoc u => snd (createTrackingDoc u s)
  | GetTasks u => snd (getTasks u s)
  | GetCompletedPercentage u => snd (getCompletedPercentage u s)
  end.

(** The progress history stored for a user; a user without a record has
    archived nothing. *)
Definition history (s : Trackings) (u : ObjectId) : list ProgressEntry :=
  from_option progressHistory [] (s !! u).

(** *** The specification's reading of the percentage

    [round (100 * K / N, 2 decimals)] with standard rounding (half up),
    as an exact number of hundredths. *)
Definition spec_percentage_hundredths (k n : Z) : Z :=
  (2 * (10000 * k) + n) `div` (2 * n).

(** *** Sample data *)

Definition sample_task (taskName : string) (done : bool) (prev : Difficulty)
  : Task :=
  mkTask taskName "three sets" 10%float (Some 3%float) None done prev.

(** A user whose list holds two tasks named "squat". *)
Definition sample_doc : TrackingDoc :=
  mkTrackingDoc 7%N "strength"
    [sample_task "run" true JustRight;
     sample_task "squat" false Easy;
     sample_task "squat" true Difficult]
    [].
Definition sample_store : Trackings := {[ 7%N := sample_doc ]}.

(** A user who has a record and no task. *)
Definition empty_doc : TrackingDoc := mkTrackingDoc 7%N "" [] [].
Definition empty_store : Trackings := {[ 7%N := empty_doc ]}.

(** A record with [n] tasks of which the first [k] are completed. *)
Definition doc_with (k n : nat) : TrackingDoc :=
  mkTrackingDoc 7%N ""
    (replicate k (sample_task "run" true JustRight)
       ++ replicate (n - k) (sample_task "run" false JustRight))
    [].

(** *** Observations on operations and collections *)

(** The user an operation is called for. *)
Definition op_user (op : Op) : ObjectId :=
  match op with
  | CreateTask u _ _ _ _ _ | UpdateTask u _ _ _ _ | DeleteTask u _
  | SetUserGoal u _ | SetCompleted u _ | IsCompleted u _ | TasksCompleted u
  | PromptChange u _ _ | ResetWeeklyTasks _ u | GetProgressHistory u
  | CreateTrackingDoc u | GetTasks u | GetCompletedPercentage u => u
  end.

(** Whether the method throws. *)
Definition throws (op : Op) (s : Trackings) : bool :=
  match op with
  | CreateTask u n d r se w => is_Throw (fst (createTask u n d r se w s))
  | UpdateTask u n r se w => is_Throw (fst (updateTask u n r se w s))
  | DeleteTask u n => is_Throw (fst (deleteTask u n s))
  | SetUserGoal u g => is_Throw (fst (setUserGoal u g s))
  | SetCompleted u n => is_Throw (fst (setCompleted u n s))
  | IsCompleted u n => is_Throw (fst (isCompleted u n s))
  | TasksCompleted u => is_Throw (fst (tasksCompleted u s))
  | PromptChange u n c => is_Throw (fst (promptChange u n c s))
  | ResetWeeklyTasks now u => is_Throw (fst (resetWeeklyTasks now u s))
  | GetProgressHistory u => is_Throw (fst (getProgressHistory u s))
  | CreateTrackingDoc u => is_Throw (fst (createTrackingDoc u s))
  | GetTasks u => is_Throw (fst (getTasks u s))
  | GetCompletedPercentage u => is_Throw (fst (getCompletedPercentage u s))
  end.

(** The methods that begin with [getTrackingDoc], and the task name
    that a method looks up with [find]. *)
Definition needs_record (op : Op) : bool :=
  match op with
  | CreateTask _ _ _ _ _ _ | SetUserGoal _ _ | CreateTrackingDoc _ => false
  | _ => true
  end.

Definition required_task (op : Op) : option string :=
  match op with
  | UpdateTask _ n _ _ _ | SetCompleted _ n | IsCompleted _ n
  | PromptChange _ n _ => Some n
  | _ => None
  end.

(** The operations that add or remove tasks, and the one that archives. *)
Definition changes_task_list (op : Op) : bool :=
  match op with
  | CreateTask _ _ _ _ _ _ | DeleteTask _ _ => true
  | _ => false
  end.

Definition is_reset (op : Op) : bool :=
  match op with
  | ResetWeeklyTasks _ _ => true
  | _ => false
  end.

(** What an operation writes into the record [d] of its user; a
    method that throws or only reads writes nothing. This is a summary
    that the lemma [exec_present] relates to the methods, not a method
    of the concept. *)
Definition written (op : Op) (d : TrackingDoc) : TrackingDoc :=
  match op with
  | CreateTask _ n desc r se w =>
      set_weeklyTasks (weeklyTasks d ++ [mkTask n desc r se w false JustRight]) d
  | UpdateTask _ n r se w =>
      match find_task n (weeklyTasks d) with
      | Some (i, t) => set_weeklyTasks (<[i := updated r se w t]> (weeklyTasks d)) d
      | None => d
      end
  | DeleteTask _ n =>
      set_weeklyTasks (filter (λ t, name t ≠ n) (weeklyTasks d)) d
  | SetUserGoal _ g => set_userGoal g d
  | SetCompleted _ n =>
      match find_task n (weeklyTasks d) with
      | Some (i, t) =>
          set_weeklyTasks
            (<[i := set_completed (negb (completed t)) t]> (weeklyTasks d)) d
      | None => d
      end
  | PromptChange _ n c =>
      match find_task n (weeklyTasks d) with
      | Some (i, t) =>
          set_weeklyTasks (<[i := set_previousDifficulty c t]> (weeklyTasks d)) d
      | None => d
      end
  | ResetWeeklyTasks now _ =>
      mkTrackingDoc (user d) (userGoal d)
        (set_completed false <$> weeklyTasks d)
        (progressHistory d
           ++ [mkProgressEntry (getStartOfWeek now)
                 (filter (λ t, completed t) (weeklyTasks d))])
  | _ => d
  end.

(** The names of a user's weekly tasks, in order; a user without a
    record has none. *)
Definition task_names (s : Trackings) (u : ObjectId) : list string :=
  from_option (λ d, name <$> weeklyTasks d) [] (s !! u).

End Tracking.

(** ** The tracking routes

    The handlers of [server/routes.ts] for the tracking endpoints, from
    the point where [Sessioning.getUser (session)] has returned the
    user [u]. *)
Module Routes.
Import Tracking.

Definition createTask (u : ObjectId) (taskName taskDescription : string)
    (reps0 : number) (sets0 startingWeight : option number)
  : M Trackings string :=
  r ← Tracking.createTask u taskName taskDescription reps0 sets0 startingWeight;
  match r with
  | Some _ => mret "Task created successfully!"
  | None => mret "Task creation was unsuccessful."
  end.

(** The response of the prompt route: [msg] and the field [suggestion],
    which holds [result.task || null]. *)
Definition promptChange (u : ObjectId) (taskName : string)
    (currentDifficulty : Difficulty) : M Trackings (string * option Task) :=
  r ← Tracking.promptChange u taskName currentDifficulty;
  mret (fst r, Some (snd r)).

End Routes.

(** * Properties *)

(** ** The monad and the collection *)

Section MonadFacts.
Context {St : Type}.

Lemma bind_Ok {A B} (m : M St A) (k : A → M St B) s a s' :
  m s = (Ok a, s') → (m ≫= k) s = k a s'.
Proof. intros E. unfold mbind, M_bind. by rewrite E. Qed.

Lemma bind_Throw {A B} (m : M St A) (k : A → M St B) s e s' :
  m s = (Throw e, s') → (m ≫= k) s = (Throw e, s').
Proof. intros E. unfold mbind, M_bind. by rewrite E. Qed.

End MonadFacts.

Lemma alter_present {Doc} (s : gmap ObjectId Doc) u d (f : Doc → Doc) :
  s !! u = Some d → alter f u s = <[u := f d]> s.
Proof.
  intros E. apply map_eq. intros j.
  rewrite lookup_alter, lookup_insert.
  case_decide; subst; by rewrite ?E.
Qed.

Ltac run :=
  unfold DocCollection.readOne, DocCollection.createOne,
    DocCollection.partialUpdateOne, DocCollection.deleteOne,
    throw, mbind, M_bind, mret, M_ret; simpl.

(** ** Numbers and dates *)

Example Math_round_half_up :
  JS.Math_round 2.5%float = 3%float
  ∧ JS.Math_round (-2.5)%float = (-2)%float
  ∧ JS.Math_round 1437.5%float = 1438%float
  ∧ JS.Math_round (-0.5)%float = (-0)%float
  ∧ JS.Math_round 0.25%float = 0%float
  ∧ JS.Math_round PrimFloat.infinity = PrimFloat.infinity.
Proof. vm_compute. repeat split. Qed.


(** ** TrackingConcept *)

Module TrackingFacts.
Import DocCollection Tracking.

Lemma getTrackingDoc_present (s : Trackings) u d :
  s !! u = Some d → getTrackingDoc u s = (Ok d, s).
Proof. intros E. unfold getTrackingDoc. run. by rewrite E. Qed.

Lemma getTrackingDoc_absent (s : Trackings) u :
  s !! u = None →
  getTrackingDoc u s = (Throw (NotFoundError "Tracking document" u), s).
Proof. intros E. unfold getTrackingDoc. run. by rewrite E. Qed.

(** [find] succeeds exactly on the names that occur in the list. *)
Lemma find_task_present taskName (l : list Task) :
  taskName ∈ name <$> l → ∃ i t, find_task taskName l = Some (i, t).
Proof.
  intros (t & -> & Hin)%list_elem_of_fmap.
  destruct (list_find_elem_of (λ t0, name t0 = name t) l t Hin eq_refl)
    as [[i t'] E].
  by exists i, t'.
Qed.

Lemma find_task_absent taskName (l : list Task) :
  taskName ∉ name <$> l → find_task taskName l = None.
Proof.
  intros Hn. apply list_find_None, Forall_forall. intros t Ht E.
  apply Hn, list_elem_of_fmap. by exists t.
Qed.

Lemma find_task_Some taskName (l : list Task) i t :
  find_task taskName l = Some (i, t) →
  l !! i = Some t ∧ name t = taskName
  ∧ ∀ j t0, l !! j = Some t0 → (j < i)%nat → name t0 ≠ taskName.
Proof. unfold find_task. by rewrite list_find_Some. Qed.

(** The first task of a given name, wherever later namesakes stand. *)
Lemma find_task_first taskName (l1 l2 : list Task) t :
  Forall (λ t0, name t0 ≠ taskName) l1 → name t = taskName →
  find_task taskName (l1 ++ t :: l2) = Some (length l1, t).
Proof.
  intros Hl1 Ht. apply list_find_Some. split_and!.
  - by rewrite list_lookup_middle.
  - done.
  - intros j t0 Hj Hlt. rewrite lookup_app_l in Hj by done.
    eapply Forall_lookup_1 in Hl1; eauto.
Qed.

(** Mutating the found task in place keeps it the one that [find]
    returns, as long as its name stays. *)
Lemma find_task_insert taskName (l : list Task) i t t' :
  find_task taskName l = Some (i, t) → name t' = name t →
  find_task taskName (<[i := t']> l) = Some (i, t').
Proof.
  intros (Hi & Hn & Hfirst)%find_task_Some Hn'. apply list_find_Some.
  split_and!.
  - apply list_lookup_insert_eq. by eapply lookup_lt_Some.
  - congruence.
  - intros j t0 Hj Hlt. rewrite list_lookup_insert_ne in Hj by lia. eauto.
Qed.

(** *** promptChange *)

Lemma promptChange_run (s : Trackings) u d taskName cur i t :
  s !! u = Some d →
  find_task taskName (weeklyTasks d) = Some (i, t) →
  promptChange u taskName cur s =
    (Ok (JS.or_else (suggestion_for (previousDifficulty t) cur (userGoal d))
                    "No changes suggested!",
         set_previousDifficulty cur t),
     <[u := set_weeklyTasks
              (<[i := set_previousDifficulty cur t]> (weeklyTasks d)) d]> s).
Proof.
  intros Hs Hf. unfold promptChange.
  rewrite (bind_Ok _ _ _ _ _ (getTrackingDoc_present s u d Hs)).
  rewrite Hf. run. by rewrite (alter_present s u d).
Qed.

(** C1. For a user with a tracking record and a task name that occurs in
    the weekly tasks, [promptChange] returns the message fixed by the
    two-in-a-row rule: twice Difficult gives the weight decrease for the
    goals "muscle" and "endurance", the reps decrease for "strength" and
    nothing for any other goal; twice Easy gives the weight increase for
    "strength" and the reps increase for every other goal; every other
    pair of difficulties gives nothing. In all cases the task that was
    found is stored with [previousDifficulty] equal to the reported
    difficulty. *)
Theorem promptChange_suggestion (s : Trackings) u d taskName cur :
  s !! u = Some d →
  taskName ∈ name <$> weeklyTasks d →
  ∃ i t msg t' s' d',
    find_task taskName (weeklyTasks d) = Some (i, t)
    ∧ promptChange u taskName cur s = (Ok (msg, t'), s')
    ∧ (previousDifficulty t = Difficult → cur = Difficult →
       userGoal d = "muscle" ∨ userGoal d = "endurance" →
       msg = "Consider decreasing the weight by 5 lbs.")
    ∧ (previousDifficulty t = Difficult → cur = Difficult →
       userGoal d = "strength" →
       msg = "Consider decreasing the reps by 2.")
    ∧ (previousDifficulty t = Difficult → cur = Difficult →
       userGoal d ≠ "muscle" → userGoal d ≠ "endurance" →
       userGoal d ≠ "strength" →
       msg = "No changes suggested!")
    ∧ (previousDifficulty t = Easy → cur = Easy →
       userGoal d = "strength" →
       msg = "Consider increasing the weight.")
    ∧ (previousDifficulty t = Easy → cur = Easy →
       userGoal d ≠ "strength" →
       msg = "Consider increasing the reps.")
    ∧ (¬ (previousDifficulty t = Difficult ∧ cur = Difficult) →
       ¬ (previousDifficulty t = Easy ∧ cur = Easy) →
       msg = "No changes suggested!")
    ∧ s' !! u = Some d'
    ∧ find_task taskName (weeklyTasks d') = Some (i, t')
    ∧ previousDifficulty t' = cur
    ∧ t' = set_previousDifficulty cur t.
Proof.
  intros Hs Hin.
  destruct (find_task_present _ _ Hin) as (i & t & Hf).
  eexists i, t, _, _, _, _. split; [exact Hf|].
  split; [exact (promptChange_run s u d taskName cur i t Hs Hf)|].
  unfold suggestion_for.
  split_and!.
  - intros -> -> [-> | ->]; reflexivity.
  - intros -> -> ->; reflexivity.
  - intros -> -> H1 H2 H3. simpl.
    rewrite !bool_decide_eq_false_2 by done. reflexivity.
  - intros -> -> ->; reflexivity.
  - intros -> -> H1. simpl.
    rewrite !bool_decide_eq_false_2 by done. reflexivity.
  - intros H1 H2.
    destruct (previousDifficulty t), cur; simpl; try reflexivity.
    + exfalso; apply H1; done.
    + exfalso; apply H2; done.
  - apply lookup_insert_eq.
  - simpl. by apply (find_task_insert taskName (weeklyTasks d) i t).
  - reflexivity.
  - reflexivity.
Qed.

(** The final suggestion of a user whose goal is "strength", reporting
    Easy twice on the first "squat". *)
Lemma promptChange_suggestion_witness :
  ∃ i t msg t' s' d',
    find_task "squat" (weeklyTasks sample_doc) = Some (i, t)
    ∧ promptChange 7%N "squat" Easy sample_store = (Ok (msg, t'), s')
    ∧ (previousDifficulty t = Difficult → Easy = Difficult →
       userGoal sample_doc = "muscle" ∨ userGoal sample_doc = "endurance" →
       msg = "Consider decreasing the weight by 5 lbs.")
    ∧ (previousDifficulty t = Difficult → Easy = Difficult →
       userGoal sample_doc = "strength" →
       msg = "Consider decreasing the reps by 2.")
    ∧ (previousDifficulty t = Difficult → Easy = Difficult →
       userGoal sample_doc ≠ "muscle" → userGoal sample_doc ≠ "endurance" →
       userGoal sample_doc ≠ "strength" →
       msg = "No changes suggested!")
    ∧ (previousDifficulty t = Easy → Easy = Easy →
       userGoal sample_doc = "strength" →
       msg = "Consider increasing the weight.")
    ∧ (previousDifficulty t = Easy → Easy = Easy →
       userGoal sample_doc ≠ "strength" →
       msg = "Consider increasing the reps.")
    ∧ (¬ (previousDifficulty t = Difficult ∧ Easy = Difficult) →
       ¬ (previousDifficulty t = Easy ∧ Easy = Easy) →
       msg = "No changes suggested!")
    ∧ s' !! 7%N = Some d'
    ∧ find_task "squat" (weeklyTasks d') = Some (i, t')
    ∧ previousDifficulty t' = Easy
    ∧ t' = set_previousDifficulty Easy t.
Proof.
  apply (promptChange_suggestion sample_store 7%N sample_doc "squat" Easy).
  - reflexivity.
  - refine (bool_decide_unpack _ _). vm_compute. exact I.
Defined.

(** *** setCompleted and isCompleted *)

Lemma setCompleted_run (s : Trackings) u d taskName i t :
  s !! u = Some d →
  find_task taskName (weeklyTasks d) = Some (i, t) →
  ∃ msg,
    setCompleted u taskName s =
      (Ok msg,
       <[u := set_weeklyTasks
                (<[i := set_completed (negb (completed t)) t]> (weeklyTasks d))
                d]> s).
Proof.
  intros Hs Hf. unfold setCompleted.
  rewrite (bind_Ok _ _ _ _ _ (getTrackingDoc_present s u d Hs)).
  rewrite Hf. run. rewrite (alter_present s u d) by done. eauto.
Qed.

Lemma isCompleted_run (s : Trackings) u d taskName i t :
  s !! u = Some d →
  find_task taskName (weeklyTasks d) = Some (i, t) →
  isCompleted u taskName s = (Ok (completed t), s).
Proof.
  intros Hs Hf. unfold isCompleted.
  rewrite (bind_Ok _ _ _ _ _ (getTrackingDoc_present s u d Hs)).
  by rewrite Hf.
Qed.

(** C9. For a user with a tracking record and a task name that occurs in
    the weekly tasks, one call of [setCompleted] flips the [completed]
    flag of the task of that name, and a second call flips it back: the
    flag, and with it the whole collection, is as it was at the start. *)
Theorem setCompleted_involution (s : Trackings) u d taskName :
  s !! u = Some d →
  taskName ∈ name <$> weeklyTasks d →
  ∃ original m1 s1 m2 s2,
    isCompleted u taskName s = (Ok original, s)
    ∧ setCompleted u taskName s = (Ok m1, s1)
    ∧ isCompleted u taskName s1 = (Ok (negb original), s1)
    ∧ setCompleted u taskName s1 = (Ok m2, s2)
    ∧ isCompleted u taskName s2 = (Ok original, s2)
    ∧ s2 = s.
Proof.
  intros Hs Hin.
  destruct (find_task_present _ _ Hin) as (i & t & Hf).
  pose proof (find_task_Some _ _ _ _ Hf) as (Hi & _ & _).
  set (t1 := set_completed (negb (completed t)) t).
  set (d1 := set_weeklyTasks (<[i := t1]> (weeklyTasks d)) d).
  assert (Hs1 : (<[u := d1]> s) !! u = Some d1) by apply lookup_insert_eq.
  assert (Hf1 : find_task taskName (weeklyTasks d1) = Some (i, t1))
    by (by apply (find_task_insert taskName (weeklyTasks d) i t)).
  destruct (setCompleted_run s u d taskName i t Hs Hf) as [m1 E1].
  destruct (setCompleted_run _ u d1 taskName i t1 Hs1 Hf1) as [m2 E2].
  assert (Hback : <[u := set_weeklyTasks
                     (<[i := set_completed (negb (completed t1)) t1]>
                        (weeklyTasks d1)) d1]> (<[u := d1]> s) = s).
  { rewrite insert_insert_eq. simpl.
    rewrite list_insert_insert_eq, negb_involutive.
    replace (set_completed (completed t) t1) with t
      by (by destruct t).
    rewrite list_insert_id by done.
    replace (set_weeklyTasks (weeklyTasks d) d1) with d by (by destruct d).
    by apply insert_id. }
  rewrite Hback in E2.
  exists (completed t), m1, (<[u := d1]> s), m2, s. split_and!.
  - by apply (isCompleted_run s u d taskName i t).
  - exact E1.
  - by apply (isCompleted_run _ u d1 taskName i t1).
  - exact E2.
  - by apply (isCompleted_run s u d taskName i t).
  - reflexivity.
Qed.

Lemma setCompleted_involution_witness :
  ∃ original m1 s1 m2 s2,
    isCompleted 7%N "squat" sample_store = (Ok original, sample_store)
    ∧ setCompleted 7%N "squat" sample_store = (Ok m1, s1)
    ∧ isCompleted 7%N "squat" s1 = (Ok (negb original), s1)
    ∧ setCompleted 7%N "squat" s1 = (Ok m2, s2)
    ∧ isCompleted 7%N "squat" s2 = (Ok original, s2)
    ∧ s2 = sample_store.
Proof.
  apply (setCompleted_involution sample_store 7%N sample_doc "squat").
  - reflexivity.
  - refine (bool_decide_unpack _ _). vm_compute. exact I.
Defined.

(** *** updateTask *)

Lemma updateTask_run (s : Trackings) u d taskName reps0 sets0 weight0 i t :
  s !! u = Some d →
  find_task taskName (weeklyTasks d) = Some (i, t) →
  updateTask u taskName reps0 sets0 weight0 s =
    (Ok ("Task successfully updated!", updated reps0 sets0 weight0 t),
     <[u := set_weeklyTasks
              (<[i := updated reps0 sets0 weight0 t]> (weeklyTasks d)) d]> s).
Proof.
  intros Hs Hf. unfold updateTask.
  rewrite (bind_Ok _ _ _ _ _ (getTrackingDoc_present s u d Hs)).
  rewrite Hf. run. by rewrite (alter_present s u d).
Qed.

Lemma updated_fields reps0 sets0 weight0 (t : Task) :
  reps (updated reps0 sets0 weight0 t) = default (reps t) reps0
  ∧ sets (updated reps0 sets0 weight0 t)
    = match sets0 with Some v => Some v | None => sets t end
  ∧ weight (updated reps0 sets0 weight0 t)
    = match weight0 with Some v => Some v | None => weight t end
  ∧ name (updated reps0 sets0 weight0 t) = name t
  ∧ description (updated reps0 sets0 weight0 t) = description t
  ∧ completed (updated reps0 sets0 weight0 t) = completed t
  ∧ previousDifficulty (updated reps0 sets0 weight0 t) = previousDifficulty t.
Proof. by destruct reps0, sets0, weight0. Qed.

(** C6. [updateTask] throws NotFound, leaving the collection as it is,
    exactly when the user has no tracking record or no task of the given
    name; otherwise it returns the task of that name with the provided
    fields overwritten, every field for which nothing was provided
    (and the name, description, completed flag and previous difficulty
    in any case) as before, and stores it at the same position, every
    other task, the goal, the history and every other user's record
    being untouched. *)
Theorem updateTask_partial (s : Trackings) u taskName reps0 sets0 weight0 :
  (is_Throw (fst (updateTask u taskName reps0 sets0 weight0 s)) = true
   ↔ s !! u = None
     ∨ ∃ d, s !! u = Some d ∧ taskName ∉ name <$> weeklyTasks d)
  ∧ (is_Throw (fst (updateTask u taskName reps0 sets0 weight0 s)) = true →
     ∃ what,
       updateTask u taskName reps0 sets0 weight0 s
       = (Throw (NotFoundError what u), s))
  ∧ ∀ d, s !! u = Some d → taskName ∈ name <$> weeklyTasks d →
      ∃ i t t' msg s' d',
        find_task taskName (weeklyTasks d) = Some (i, t)
        ∧ updateTask u taskName reps0 sets0 weight0 s = (Ok (msg, t'), s')
        ∧ reps t' = default (reps t) reps0
        ∧ sets t' = match sets0 with Some v => Some v | None => sets t end
        ∧ weight t' = match weight0 with Some v => Some v | None => weight t end
        ∧ name t' = name t
        ∧ description t' = description t
        ∧ completed t' = completed t
        ∧ previousDifficulty t' = previousDifficulty t
        ∧ s' !! u = Some d'
        ∧ weeklyTasks d' !! i = Some t'
        ∧ length (weeklyTasks d') = length (weeklyTasks d)
        ∧ (∀ j, j ≠ i → weeklyTasks d' !! j = weeklyTasks d !! j)
        ∧ userGoal d' = userGoal d
        ∧ progressHistory d' = progressHistory d
        ∧ user d' = user d
        ∧ ∀ v, v ≠ u → s' !! v = s !! v.
Proof.
  assert (Hok : ∀ d, s !! u = Some d → taskName ∈ name <$> weeklyTasks d →
            ∃ i t, find_task taskName (weeklyTasks d) = Some (i, t)
              ∧ updateTask u taskName reps0 sets0 weight0 s =
                (Ok ("Task successfully updated!", updated reps0 sets0 weight0 t),
                 <[u := set_weeklyTasks
                          (<[i := updated reps0 sets0 weight0 t]> (weeklyTasks d))
                          d]> s)).
  { intros d Hs Hin. destruct (find_task_present _ _ Hin) as (i & t & Hf).
    exists i, t. split; [done|]. by apply updateTask_run. }
  assert (Hnodoc : s !! u = None →
            updateTask u taskName reps0 sets0 weight0 s
            = (Throw (NotFoundError "Tracking document" u), s)).
  { intros Hs. unfold updateTask.
    by rewrite (bind_Throw _ _ _ _ _ (getTrackingDoc_absent s u Hs)). }
  assert (Hnotask : ∀ d, s !! u = Some d → taskName ∉ name <$> weeklyTasks d →
            updateTask u taskName reps0 sets0 weight0 s
            = (Throw (NotFoundError ("Task " +:+ taskName) u), s)).
  { intros d Hs Hn. unfold updateTask.
    rewrite (bind_Ok _ _ _ _ _ (getTrackingDoc_present s u d Hs)).
    by rewrite (find_task_absent _ _ Hn). }
  split_and!.
  - split.
    + intros Hthrow. destruct (s !! u) as [d|] eqn:Hs; [|by left].
      right. exists d. split; [done|]. intros Hin.
      destruct (Hok d eq_refl Hin) as (i & t & _ & E).
      rewrite E in Hthrow. discriminate.
    + intros [Hs | (d & Hs & Hn)].
      * by rewrite Hnodoc.
      * by rewrite (Hnotask d).
  - intros Hthrow. destruct (s !! u) as [d|] eqn:Hs.
    + destruct (decide (taskName ∈ name <$> weeklyTasks d)) as [Hin|Hn].
      * destruct (Hok d eq_refl Hin) as (i & t & _ & E).
        rewrite E in Hthrow. discriminate.
      * eexists. by apply (Hnotask d).
    + eexists. by apply Hnodoc.
  - intros d Hs Hin. destruct (Hok d Hs Hin) as (i & t & Hf & E).
    pose proof (find_task_Some _ _ _ _ Hf) as (Hi & _ & _).
    pose proof (updated_fields reps0 sets0 weight0 t)
      as (? & ? & ? & ? & ? & ? & ?).
    exists i, t, (updated reps0 sets0 weight0 t), "Task successfully updated!",
      (<[u := set_weeklyTasks
                (<[i := updated reps0 sets0 weight0 t]> (weeklyTasks d)) d]> s),
      (set_weeklyTasks (<[i := updated reps0 sets0 weight0 t]> (weeklyTasks d)) d).
    split_and!; try done.
    + apply lookup_insert_eq.
    + simpl. apply list_lookup_insert_eq. by eapply lookup_lt_Some.
    + simpl. apply length_insert.
    + intros j Hj. simpl. by apply list_lookup_insert_ne.
    + intros v Hv. by apply lookup_insert_ne.
Qed.

Lemma updateTask_partial_witness :
  ∃ i t t' msg s' d',
    find_task "squat" (weeklyTasks sample_doc) = Some (i, t)
    ∧ updateTask 7%N "squat" (Some 12%float) None None sample_store
      = (Ok (msg, t'), s')
    ∧ reps t' = default (reps t) (Some 12%float)
    ∧ sets t' = sets t
    ∧ weight t' = weight t
    ∧ name t' = name t
    ∧ description t' = description t
    ∧ completed t' = completed t
    ∧ previousDifficulty t' = previousDifficulty t
    ∧ s' !! 7%N = Some d'
    ∧ weeklyTasks d' !! i = Some t'
    ∧ length (weeklyTasks d') = length (weeklyTasks sample_doc)
    ∧ (∀ j, j ≠ i → weeklyTasks d' !! j = weeklyTasks sample_doc !! j)
    ∧ userGoal d' = userGoal sample_doc
    ∧ progressHistory d' = progressHistory sample_doc
    ∧ user d' = user sample_doc
    ∧ ∀ v, v ≠ 7%N → s' !! v = sample_store !! v.
Proof.
  apply (updateTask_partial sample_store 7%N "squat" (Some 12%float) None None).
  - reflexivity.
  - refine (bool_decide_unpack _ _). vm_compute. exact I.
Defined.

(** *** Tasks that share a name *)

Lemma createTask_present (s : Trackings) u d taskName taskDescription
    reps0 sets0 startingWeight :
  s !! u = Some d →
  createTask u taskName taskDescription reps0 sets0 startingWeight s =
    (Ok (Some ("Task successfully created!",
               mkTask taskName taskDescription reps0 sets0 startingWeight
                      false JustRight)),
     <[u := set_weeklyTasks
              (weeklyTasks d
                 ++ [mkTask taskName taskDescription reps0 sets0 startingWeight
                            false JustRight]) d]> s).
Proof.
  intros Hs. unfold createTask, createTrackingDoc. run. rewrite Hs. simpl.
  by rewrite (alter_present s u d).
Qed.

Lemma deleteTask_present (s : Trackings) u d taskName :
  s !! u = Some d →
  deleteTask u taskName s =
    (Ok "Task successfully deleted!",
     <[u := set_weeklyTasks
              (filter (λ t, name t ≠ taskName) (weeklyTasks d)) d]> s).
Proof.
  intros Hs. unfold deleteTask.
  rewrite (bind_Ok _ _ _ _ _ (getTrackingDoc_present s u d Hs)).
  run. by rewrite (alter_present s u d).
Qed.

Lemma insert_middle {A} (l1 l2 : list A) (x y : A) :
  <[length l1 := y]> (l1 ++ x :: l2) = l1 ++ y :: l2.
Proof.
  replace (length l1) with (length l1 + 0)%nat by lia.
  by rewrite insert_app_r.
Qed.

Lemma filter_all {A} (P : A → Prop) `{∀ x, Decision (P x)} (l : list A) :
  Forall P l → filter P l = l.
Proof.
  induction 1 as [|x l Hx _ IH]; [done|].
  by rewrite filter_cons_True, IH.
Qed.

(** C10. [createTask] appends a task whatever names the list holds, so a
    list may hold several tasks of one name. When the weekly tasks are
    [l1 ++ t :: l2] with [t] the first task named [taskName] ([l2] may
    hold more of them), [updateTask], [setCompleted] and [promptChange]
    change [t] alone and [isCompleted] reads [t], [l1] and [l2] staying
    as they are; [deleteTask] leaves [l1] and those tasks of [l2] that
    bear another name, so no task of that name is left. *)
Theorem same_name_tasks (s : Trackings) u d taskName (l1 l2 : list Task) t :
  s !! u = Some d →
  weeklyTasks d = l1 ++ t :: l2 →
  name t = taskName →
  Forall (λ t0, name t0 ≠ taskName) l1 →
  (∀ taskDescription reps0 sets0 startingWeight, ∃ r t',
      createTask u taskName taskDescription reps0 sets0 startingWeight s
      = (Ok r, <[u := set_weeklyTasks (l1 ++ t :: l2 ++ [t']) d]> s)
      ∧ name t' = taskName)
  ∧ (∀ reps0 sets0 weight0, ∃ r,
      updateTask u taskName reps0 sets0 weight0 s
      = (Ok r, <[u := set_weeklyTasks
                         (l1 ++ updated reps0 sets0 weight0 t :: l2) d]> s))
  ∧ (∃ r,
      setCompleted u taskName s
      = (Ok r, <[u := set_weeklyTasks
                         (l1 ++ set_completed (negb (completed t)) t :: l2) d]> s))
  ∧ isCompleted u taskName s = (Ok (completed t), s)
  ∧ (∀ cur, ∃ r,
      promptChange u taskName cur s
      = (Ok r, <[u := set_weeklyTasks
                         (l1 ++ set_previousDifficulty cur t :: l2) d]> s))
  ∧ (∃ r,
      deleteTask u taskName s
      = (Ok r, <[u := set_weeklyTasks
                         (l1 ++ filter (λ t0, name t0 ≠ taskName) l2) d]> s)
      ∧ ∀ t0, t0 ∈ l1 ++ filter (λ t0, name t0 ≠ taskName) l2 →
              name t0 ≠ taskName).
Proof.
  intros Hs Hl Ht Hl1.
  assert (Hf : find_task taskName (weeklyTasks d) = Some (length l1, t))
    by (rewrite Hl; by apply find_task_first).
  split_and!.
  - intros taskDescription reps0 sets0 startingWeight. eexists _, _.
    rewrite (createTask_present s u d) by done.
    rewrite Hl, <- app_assoc. simpl. split; reflexivity.
  - intros reps0 sets0 weight0. eexists.
    rewrite (updateTask_run s u d taskName reps0 sets0 weight0 _ t) by done.
    by rewrite Hl, insert_middle.
  - destruct (setCompleted_run s u d taskName _ t Hs Hf) as [m E].
    exists m. by rewrite E, Hl, insert_middle.
  - by apply (isCompleted_run s u d taskName (length l1) t).
  - intros cur. eexists.
    rewrite (promptChange_run s u d taskName cur _ t) by done.
    by rewrite Hl, insert_middle.
  - eexists. rewrite (deleteTask_present s u d) by done.
    rewrite Hl, filter_app, filter_cons_False by (intros H; by apply H).
    rewrite (filter_all _ l1) by done.
    split; [reflexivity|].
    intros t0 [Hin | Hin]%elem_of_app.
    + eapply Forall_forall in Hl1; eauto.
    + by apply list_elem_of_filter in Hin as [? _].
Qed.

Lemma same_name_tasks_witness :
  sample_store !! 7%N = Some sample_doc
  ∧ (∃ r,
      setCompleted 7%N "squat" sample_store
      = (Ok r, <[7%N := set_weeklyTasks
                   ([sample_task "run" true JustRight]
                      ++ set_completed (negb false) (sample_task "squat" false Easy)
                      :: [sample_task "squat" true Difficult]) sample_doc]>
                 sample_store))
  ∧ (∃ r,
      deleteTask 7%N "squat" sample_store
      = (Ok r, <[7%N := set_weeklyTasks
                   ([sample_task "run" true JustRight]
                      ++ filter (λ t0, name t0 ≠ "squat")
                           [sample_task "squat" true Difficult]) sample_doc]>
                 sample_store)
      ∧ ∀ t0, t0 ∈ [sample_task "run" true JustRight]
                    ++ filter (λ t0, name t0 ≠ "squat")
                         [sample_task "squat" true Difficult] →
              name t0 ≠ "squat").
Proof.
  assert (H1 : sample_store !! 7%N = Some sample_doc) by reflexivity.
  assert (H2 : weeklyTasks sample_doc
               = [sample_task "run" true JustRight]
                   ++ sample_task "squat" false Easy
                   :: [sample_task "squat" true Difficult]) by reflexivity.
  assert (H3 : name (sample_task "squat" false Easy) = "squat") by reflexivity.
  assert (H4 : Forall (λ t0, name t0 ≠ "squat")
                 [sample_task "run" true JustRight]).
  { refine (bool_decide_unpack _ _). vm_compute. exact I. }
  destruct (same_name_tasks sample_store 7%N sample_doc "squat" _ _ _
              H1 H2 H3 H4) as (_ & _ & Hset & _ & _ & Hdel).
  exact (conj H1 (conj Hset Hdel)).
Defined.

(** *** resetWeeklyTasks *)

Lemma resetWeeklyTasks_present (now : Date) (s : Trackings) u d :
  s !! u = Some d →
  resetWeeklyTasks now u s =
    (Ok "Weekly tasks reset and progress archived!",
     <[u := mkTrackingDoc (user d) (userGoal d)
              (set_completed false <$> weeklyTasks d)
              (progressHistory d
                 ++ [mkProgressEntry (getStartOfWeek now)
                       (filter (λ t, completed t) (weeklyTasks d))])]> s).
Proof.
  intros Hs. unfold resetWeeklyTasks.
  rewrite (bind_Ok _ _ _ _ _ (getTrackingDoc_present s u d Hs)).
  run. by rewrite (alter_present s u d).
Qed.

(** C4. For a user with a tracking record, [resetWeeklyTasks] appends
    one entry to the progress history, whose tasks are exactly the tasks
    that were completed, in their order; every task of the weekly list
    stays at its position with [completed] false and its name,
    description, reps, sets, weight and previous difficulty as before;
    the goal is as before. *)
Theorem resetWeeklyTasks_frame (now : Date) (s : Trackings) u d :
  s !! u = Some d →
  ∃ msg s' d' entry,
    resetWeeklyTasks now u s = (Ok msg, s')
    ∧ s' !! u = Some d'
    ∧ progressHistory d' = progressHistory d ++ [entry]
    ∧ completedTasks entry = filter (λ t, completed t) (weeklyTasks d)
    ∧ (∀ t, t ∈ completedTasks entry ↔ t ∈ weeklyTasks d ∧ completed t = true)
    ∧ length (weeklyTasks d') = length (weeklyTasks d)
    ∧ (∀ i t, weeklyTasks d !! i = Some t →
         ∃ t', weeklyTasks d' !! i = Some t'
               ∧ completed t' = false
               ∧ name t' = name t
               ∧ description t' = description t
               ∧ reps t' = reps t
               ∧ sets t' = sets t
               ∧ weight t' = weight t
               ∧ previousDifficulty t' = previousDifficulty t)
    ∧ userGoal d' = userGoal d
    ∧ user d' = user d.
Proof.
  intros Hs.
  eexists _, _, _, (mkProgressEntry (getStartOfWeek now)
                      (filter (λ t, completed t) (weeklyTasks d))).
  split; [by apply resetWeeklyTasks_present|].
  split; [apply lookup_insert_eq|]. simpl.
  split_and!; try reflexivity.
  - intros t. rewrite list_elem_of_filter, Is_true_true. tauto.
  - apply length_fmap.
  - intros i t Hi. exists (set_completed false t).
    rewrite list_lookup_fmap, Hi. by destruct t.
Qed.

Lemma resetWeeklyTasks_frame_witness :
  ∃ msg s' d' entry,
    resetWeeklyTasks (mkDate 20000 0) 7%N sample_store = (Ok msg, s')
    ∧ s' !! 7%N = Some d'
    ∧ progressHistory d' = progressHistory sample_doc ++ [entry]
    ∧ completedTasks entry
      = filter (λ t, completed t) (weeklyTasks sample_doc)
    ∧ (∀ t, t ∈ completedTasks entry
            ↔ t ∈ weeklyTasks sample_doc ∧ completed t = true)
    ∧ length (weeklyTasks d') = length (weeklyTasks sample_doc)
    ∧ (∀ i t, weeklyTasks sample_doc !! i = Some t →
         ∃ t', weeklyTasks d' !! i = Some t'
               ∧ completed t' = false
               ∧ name t' = name t
               ∧ description t' = description t
               ∧ reps t' = reps t
               ∧ sets t' = sets t
               ∧ weight t' = weight t
               ∧ previousDifficulty t' = previousDifficulty t)
    ∧ userGoal d' = userGoal sample_doc
    ∧ user d' = user sample_doc.
Proof.
  apply (resetWeeklyTasks_frame (mkDate 20000 0) sample_store 7%N sample_doc).
  reflexivity.
Defined.

(** *** The progress history only grows *)

Lemma history_alter (s : Trackings) u v (f : TrackingDoc → TrackingDoc) :
  (∀ d, s !! u = Some d → progressHistory d `prefix_of` progressHistory (f d)) →
  history s v `prefix_of` history (alter f u s) v.
Proof.
  intros Hf. unfold history. rewrite lookup_alter.
  case_decide; [subst|done].
  destruct (s !! v) as [d|]; simpl; [by apply Hf|done].
Qed.

Lemma history_create (s : Trackings) u v d :
  s !! u = None → history s v `prefix_of` history (<[u := d]> s) v.
Proof.
  intros Hs. unfold history. rewrite lookup_insert.
  case_decide; [subst|done]. rewrite Hs. apply prefix_nil.
Qed.

(** A method that starts with [getTrackingDoc] and then either writes
    nothing or ends with one partial update that keeps or extends the
    history it has read. *)
Lemma history_get_then_update {A} (s : Trackings) u v
    (k : TrackingDoc → M Trackings A) :
  (∀ d, s !! u = Some d →
        snd (k d s) = s
        ∨ ∃ f, snd (k d s) = alter f u s
               ∧ progressHistory d `prefix_of` progressHistory (f d)) →
  history s v `prefix_of` history (snd ((getTrackingDoc u ≫= k) s)) v.
Proof.
  intros Hk. destruct (s !! u) as [d|] eqn:Hs.
  - rewrite (bind_Ok _ _ _ _ _ (getTrackingDoc_present s u d Hs)).
    destruct (Hk d eq_refl) as [-> | (f & -> & Hf)]; [done|].
    apply history_alter. intros d0 Hd0. congruence.
  - by rewrite (bind_Throw _ _ _ _ _ (getTrackingDoc_absent s u Hs)).
Qed.

Lemma exec_history (op : Op) (s : Trackings) v :
  history s v `prefix_of` history (exec op s) v.
Proof.
  destruct op; simpl.
  - (* createTask *)
    unfold createTask, createTrackingDoc. run.
    destruct (s !! u) as [d|] eqn:Hs; simpl.
    + by apply history_alter.
    + rewrite lookup_insert_eq. simpl.
      etrans; [by apply (history_create s u v)|]. by apply history_alter.
  - (* updateTask *)
    apply history_get_then_update. intros d Hs.
    destruct (find_task _ _) as [[i t]|]; [right|by left].
    eexists. split; [reflexivity|]. done.
  - (* deleteTask *)
    apply history_get_then_update. intros d Hs. right.
    eexists. split; [reflexivity|]. done.
  - (* setUserGoal *)
    unfold setUserGoal. run. by apply history_alter.
  - (* setCompleted *)
    apply history_get_then_update. intros d Hs.
    destruct (find_task _ _) as [[i t]|]; [right|by left].
    eexists. split; [reflexivity|]. done.
  - (* isCompleted *)
    apply history_get_then_update. intros d Hs. left.
    by destruct (find_task _ _) as [[i t]|].
  - (* tasksCompleted *)
    apply history_get_then_update. intros d Hs. by left.
  - (* promptChange *)
    apply history_get_then_update. intros d Hs.
    destruct (find_task _ _) as [[i t]|]; [right|by left].
    eexists. split; [reflexivity|]. done.
  - (* resetWeeklyTasks *)
    apply history_get_then_update. intros d Hs. right.
    eexists. split; [reflexivity|]. simpl. by apply prefix_app_r.
  - (* getProgressHistory *)
    apply history_get_then_update. intros d Hs. by left.
  - (* createTrackingDoc *)
    unfold createTrackingDoc. run.
    destruct (s !! u) as [d|] eqn:Hs; simpl; [done|].
    by apply history_create.
  - (* getTasks *)
    apply history_get_then_update. intros d Hs. by left.
  - (* getCompletedPercentage *)
    apply history_get_then_update. intros d Hs. left.
    by case_bool_decide.
Qed.

(** C7. The progress history is append-only: after any one operation of
    the concept, on any user and with any arguments, the history stored
    for a user has the history from before as a prefix; hence after any
    sequence of operations every entry that was archived is still at its
    position, unchanged. *)
Theorem progressHistory_append_only :
  (∀ (op : Op) (s : Trackings) v,
     history s v `prefix_of` history (exec op s) v)
  ∧ (∀ (ops : list Op) (s : Trackings) v i entry,
       history s v !! i = Some entry →
       history (foldl (λ st op, exec op st) s ops) v !! i = Some entry).
Proof.
  split; [exact exec_history|].
  intros ops. induction ops as [|op ops IH]; intros s v i entry Hi; [done|].
  simpl. apply IH. by eapply prefix_lookup_Some, exec_history.
Qed.

(** *** tasksCompleted *)

(** C3, as the specification states it, fails on a user whose task list
    is empty: [every] is true there. *)
Lemma tasksCompleted_empty_counterexample :
  ¬ (fst (tasksCompleted 7%N empty_store) = Ok true
     ↔ weeklyTasks empty_doc ≠ []
       ∧ ∀ t, t ∈ weeklyTasks empty_doc → completed t = true).
Proof.
  intros [H _]. destruct (H eq_refl) as [Hne _]. by apply Hne.
Qed.

(** C3, amended. For a user with a tracking record, [tasksCompleted]
    returns true exactly when every task of the weekly list is
    completed; on an empty list it returns true. *)
Theorem tasksCompleted_every (s : Trackings) u d :
  s !! u = Some d →
  ∃ b,
    tasksCompleted u s = (Ok b, s)
    ∧ (b = true ↔ ∀ t, t ∈ weeklyTasks d → completed t = true)
    ∧ (weeklyTasks d = [] → b = true).
Proof.
  intros Hs. exists (forallb completed (weeklyTasks d)). split_and!.
  - unfold tasksCompleted.
    by rewrite (bind_Ok _ _ _ _ _ (getTrackingDoc_present s u d Hs)).
  - rewrite forallb_forall. split; intros H t Ht; apply H;
      by apply list_elem_of_In.
  - by intros ->.
Qed.

Lemma tasksCompleted_every_witness :
  ∃ b,
    tasksCompleted 7%N empty_store = (Ok b, empty_store)
    ∧ (b = true ↔ ∀ t, t ∈ weeklyTasks empty_doc → completed t = true)
    ∧ (weeklyTasks empty_doc = [] → b = true).
Proof.
  apply (tasksCompleted_every empty_store 7%N empty_doc). reflexivity.
Defined.

(** *** Which methods throw *)

(** C2, as the specification states it, fails on a user without a
    tracking record: the reset and the percentage throw NotFound. *)
Lemma total_operations_counterexample :
  resetWeeklyTasks (mkDate 20000 0) 7%N ∅
  = (Throw (NotFoundError "Tracking document" 7%N), ∅)
  ∧ getCompletedPercentage 7%N ∅
    = (Throw (NotFoundError "Tracking document" 7%N), ∅).
Proof. split; reflexivity. Qed.

(** C2, amended. For every user and all arguments, [createTask] and
    [setUserGoal] return without throwing, also when the user has no
    tracking record; [resetWeeklyTasks] and [getCompletedPercentage]
    throw exactly when the user has no tracking record, and what they
    throw is NotFound, the collection being left as it was. *)
Theorem throwing_operations :
  (∀ (s : Trackings) u taskName taskDescription reps0 sets0 startingWeight,
     is_Throw (fst (createTask u taskName taskDescription reps0 sets0
                      startingWeight s)) = false)
  ∧ (∀ (s : Trackings) u goal, is_Throw (fst (setUserGoal u goal s)) = false)
  ∧ (∀ now (s : Trackings) u,
       (is_Throw (fst (resetWeeklyTasks now u s)) = true ↔ s !! u = None)
       ∧ (s !! u = None →
          resetWeeklyTasks now u s
          = (Throw (NotFoundError "Tracking document" u), s)))
  ∧ (∀ (s : Trackings) u,
       (is_Throw (fst (getCompletedPercentage u s)) = true ↔ s !! u = None)
       ∧ (s !! u = None →
          getCompletedPercentage u s
          = (Throw (NotFoundError "Tracking document" u), s))).
Proof.
  split_and!.
  - intros. unfold createTask, createTrackingDoc. run.
    destruct (s !! u) as [d|] eqn:Hs; simpl; [done|].
    by rewrite lookup_insert_eq.
  - done.
  - intros now s u. destruct (s !! u) as [d|] eqn:Hs.
    + rewrite (resetWeeklyTasks_present now s u d Hs). simpl. split; [|done].
      split; done.
    + unfold resetWeeklyTasks.
      rewrite (bind_Throw _ _ _ _ _ (getTrackingDoc_absent s u Hs)).
      done.
  - intros s u. unfold getCompletedPercentage.
    destruct (s !! u) as [d|] eqn:Hs.
    + rewrite (bind_Ok _ _ _ _ _ (getTrackingDoc_present s u d Hs)).
      split; [|done]. case_bool_decide; simpl; split; done.
    + rewrite (bind_Throw _ _ _ _ _ (getTrackingDoc_absent s u Hs)).
      done.
Qed.

(** *** getCompletedPercentage *)

Lemma getCompletedPercentage_empty (s : Trackings) u d :
  s !! u = Some d → weeklyTasks d = [] →
  getCompletedPercentage u s = (Ok 0%float, s).
Proof.
  intros Hs Hl. unfold getCompletedPercentage.
  rewrite (bind_Ok _ _ _ _ _ (getTrackingDoc_present s u d Hs)).
  by rewrite Hl.
Qed.

(** Three tasks, one of them completed: 33.33. *)
Lemma getCompletedPercentage_1_of_3 :
  fst (getCompletedPercentage 7%N {[ 7%N := doc_with 1 3 ]})
  = Ok (3333 / 100)%float.
Proof. vm_compute. reflexivity. Qed.

(** C5, at a list of 160 tasks of which 23 are completed. The exact
    percentage is 14.375, which standard rounding to two decimals takes
    to 14.38; the method computes [23 / 160 * 100] in binary64, gets
    14.374999999999998 and returns 14.37. *)
Theorem getCompletedPercentage_23_of_160 :
  length (weeklyTasks (doc_with 23 160)) = 160%nat
  ∧ length (filter (λ t, completed t) (weeklyTasks (doc_with 23 160))) = 23%nat
  ∧ spec_percentage_hundredths 23 160 = 1438
  ∧ fst (getCompletedPercentage 7%N {[ 7%N := doc_with 23 160 ]})
    = Ok (1437 / 100)%float
  ∧ fst (getCompletedPercentage 7%N {[ 7%N := doc_with 23 160 ]})
    ≠ Ok (1438 / 100)%float.
Proof.
  split_and!; try (vm_compute; reflexivity).
  intros H.
  assert (E : fst (getCompletedPercentage 7%N {[ 7%N := doc_with 23 160 ]})
              = Ok (1437 / 100)%float) by (vm_compute; reflexivity).
  rewrite E in H.
  apply (f_equal (λ r, match r with
                       | Ok x => PrimFloat.eqb x (1438 / 100)%float
                       | Throw _ => false
                       end)) in H.
  vm_compute in H. discriminate.
Qed.

End TrackingFacts.

(** ** PointingConcept *)

Module PointingFacts.
Import DocCollection Pointing.

(** A [number] compared with zero: it is at least zero, or below zero,
    or NaN, and only one of the three. *)
Lemma zero_compare_cases (a : number) :
  (PrimFloat.leb PrimFloat.zero a = true
   ∧ PrimFloat.ltb a PrimFloat.zero = false ∧ PrimFloat.is_nan a = false)
  ∨ (PrimFloat.leb PrimFloat.zero a = false
     ∧ PrimFloat.ltb a PrimFloat.zero = true ∧ PrimFloat.is_nan a = false)
  ∨ (PrimFloat.leb PrimFloat.zero a = false
     ∧ PrimFloat.ltb a PrimFloat.zero = false ∧ PrimFloat.is_nan a = true).
Proof.
  unfold PrimFloat.is_nan.
  rewrite FloatAxioms.leb_spec, FloatAxioms.ltb_spec, FloatAxioms.eqb_spec.
  replace (Prim2SF PrimFloat.zero) with (S754_zero false) by reflexivity.
  destruct (Prim2SF a) as [[]|[]| |[] m e]; cbn;
    rewrite ?Z.compare_refl, ?Pos.compare_refl; cbn; tauto.
Qed.

Lemma includes_true (posts : list ObjectId) post :
  includes posts post = true ↔ post ∈ posts.
Proof. unfold includes. apply bool_decide_eq_true. Qed.

Lemma includes_false (posts : list ObjectId) post :
  includes posts post = false ↔ post ∉ posts.
Proof. unfold includes. apply bool_decide_eq_false. Qed.

(** C8, as the specification states it, fails when the amount is NaN and
    a verified post is supplied: the call throws, and none of (a), (b)
    and (c) holds. *)
Lemma awardPoints_nan_counterexample :
  ¬ (is_Throw (fst (awardPoints 7%N PrimFloat.nan (Some 9%N) sample_points))
     = true
     ↔ spec_error_condition sample_doc PrimFloat.nan (Some 9%N)).
Proof.
  intros [H _].
  destruct (H eq_refl) as [(post & _ & Hle & _) | [(post & _ & Hlt & _) | Hneg]].
  - vm_compute in Hle. discriminate.
  - vm_compute in Hlt. discriminate.
  - vm_compute in Hneg. discriminate.
Qed.

(** C8, amended. For a user with a points document, [awardPoints] throws
    exactly when (a) a verified post is supplied, the amount is at least
    zero and the post is among the verified posts, (b) a verified post is
    supplied, the amount is below zero and the post is not among them,
    (c) the points plus the amount are below zero, or a verified post is
    supplied and the amount is NaN; whenever it throws, the collection,
    and so the stored points and verified posts, is as it was. *)
Theorem awardPoints_errors (s : Points) u d amount verifiedPost :
  s !! u = Some d →
  (is_Throw (fst (awardPoints u amount verifiedPost s)) = true
   ↔ spec_error_condition d amount verifiedPost
     ∨ (is_Some verifiedPost ∧ PrimFloat.is_nan amount = true))
  ∧ (is_Throw (fst (awardPoints u amount verifiedPost s)) = true →
     snd (awardPoints u amount verifiedPost s) = s).
Proof.
  intros Hs. unfold awardPoints, spec_error_condition.
  rewrite (bind_Ok _ _ _ _ _ (eq_refl : readOne u s = (Ok (s !! u), s))).
  rewrite Hs. unfold checkVerifiedPost.
  destruct verifiedPost as [post|].
  - destruct (zero_compare_cases amount)
      as [(-> & -> & Hnan) | [(-> & -> & Hnan) | (-> & -> & Hnan)]];
      (destruct (decide (post ∈ verifiedPosts d)) as [Hin|Hin];
       [rewrite (proj2 (includes_true _ _) Hin)
       |rewrite (proj2 (includes_false _ _) Hin)]);
      destruct (PrimFloat.ltb (PrimFloat.add (points d) amount) PrimFloat.zero)
        eqn:Hneg.
    all: run; rewrite ?Hneg; simpl.
    all: (split; [split|]).
    all: try (intros _; reflexivity).
    all: try (intros; exfalso; discriminate).
    all: try (intros _; left; right; right; reflexivity).
    all: try (intros _; left; left; exists post; done).
    all: try (intros _; left; right; left; exists post; done).
    all: try (intros _; right; split; [by eexists | done]).
    all: intros [[(p & [= <-] & ? & ?) | [(p & [= <-] & ? & ?) | ?]] | [_ ?]];
      congruence.
  - destruct (PrimFloat.ltb (PrimFloat.add (points d) amount) PrimFloat.zero)
      eqn:Hneg; run; rewrite ?Hneg; simpl; (split; [split|]).
    all: try (intros _; reflexivity).
    all: try (intros; exfalso; discriminate).
    + intros _. left. right. right. reflexivity.
    + intros [[(p & ? & _) | [(p & ? & _) | ?]] | [[p ?] _]]; congruence.
Qed.

Lemma awardPoints_errors_witness :
  (is_Throw (fst (awardPoints 7%N 2%float (Some 3%N) sample_points)) = true
   ↔ spec_error_condition sample_doc 2%float (Some 3%N)
     ∨ (is_Some (Some 3%N) ∧ PrimFloat.is_nan 2%float = true))
  ∧ (is_Throw (fst (awardPoints 7%N 2%float (Some 3%N) sample_points)) = true →
     snd (awardPoints 7%N 2%float (Some 3%N) sample_points) = sample_points).
Proof.
  apply (awardPoints_errors sample_points 7%N sample_doc 2%float (Some 3%N)).
  reflexivity.
Defined.

End PointingFacts.

(** ** TrackingConcept: how the methods compose *)

Module TrackingLaws.
Import DocCollection Tracking TrackingFacts.

Lemma createTrackingDoc_run (s : Trackings) u :
  createTrackingDoc u s
  = match s !! u with
    | Some d => (Ok (Some d), s)
    | None => (Ok (Some (mkTrackingDoc u "" [] [])),
               <[u := mkTrackingDoc u "" [] []]> s)
    end.
Proof.
  unfold createTrackingDoc. run. destruct (s !! u); [done|].
  simpl. by rewrite lookup_insert_eq.
Qed.

Lemma createTask_absent (s : Trackings) u taskName taskDescription
    reps0 sets0 startingWeight :
  s !! u = None →
  createTask u taskName taskDescription reps0 sets0 startingWeight s =
    (Ok (Some ("Task successfully created!",
               mkTask taskName taskDescription reps0 sets0 startingWeight
                      false JustRight)),
     <[u := mkTrackingDoc u ""
              [mkTask taskName taskDescription reps0 sets0 startingWeight
                      false JustRight] []]> s).
Proof.
  intros Hs. unfold createTask, createTrackingDoc. run. rewrite Hs. simpl.
  rewrite lookup_insert_eq. simpl.
  rewrite (alter_present _ u (mkTrackingDoc u "" [] [])) by apply lookup_insert_eq.
  by rewrite insert_insert_eq.
Qed.

Lemma getTasks_present (s : Trackings) u d :
  s !! u = Some d → getTasks u s = (Ok (weeklyTasks d), s).
Proof.
  intros Hs. unfold getTasks.
  by rewrite (bind_Ok _ _ _ _ _ (getTrackingDoc_present s u d Hs)).
Qed.

(** X7. [createTrackingDoc] returns the user's record without touching
    the collection when there is one, and otherwise creates the record
    with an empty goal, no task and no history; a second call returns
    the same record and changes nothing; no other user is touched. *)
Theorem createTrackingDoc_idempotent (s : Trackings) u :
  ∃ d,
    createTrackingDoc u s = (Ok (Some d), <[u := d]> s)
    ∧ (∀ d0, s !! u = Some d0 → d = d0 ∧ <[u := d]> s = s)
    ∧ (s !! u = None → d = mkTrackingDoc u "" [] [])
    ∧ createTrackingDoc u (<[u := d]> s) = (Ok (Some d), <[u := d]> s)
    ∧ ∀ v, v ≠ u → (<[u := d]> s) !! v = s !! v.
Proof.
  rewrite createTrackingDoc_run.
  destruct (s !! u) as [d0|] eqn:Hs.
  - exists d0. rewrite (insert_id s u d0 Hs). split_and!; try done.
    + by intros d1 [= ->].
    + by rewrite createTrackingDoc_run, Hs.
  - eexists. split; [reflexivity|]. split_and!; try done.
    + by rewrite createTrackingDoc_run, lookup_insert_eq.
    + intros v Hv. by apply lookup_insert_ne.
Qed.

(** X8. [createTask] returns for every user: it returns a task with the
    given fields, not completed and of previous difficulty JustRight;
    afterwards [getTasks] returns the tasks from before (none for a user
    who had no record) followed by that task, the goal and the history
    are as before (empty for a user who had no record), and no other
    user is touched. *)
Theorem createTask_appends (s : Trackings) u taskName taskDescription
    reps0 sets0 startingWeight :
  ∃ task s' d',
    createTask u taskName taskDescription reps0 sets0 startingWeight s
    = (Ok (Some ("Task successfully created!", task)), s')
    ∧ task = mkTask taskName taskDescription reps0 sets0 startingWeight
                    false JustRight
    ∧ getTasks u s'
      = (Ok (from_option weeklyTasks [] (s !! u) ++ [task]), s')
    ∧ s' !! u = Some d'
    ∧ userGoal d' = from_option userGoal "" (s !! u)
    ∧ progressHistory d' = from_option progressHistory [] (s !! u)
    ∧ user d' = from_option user u (s !! u)
    ∧ ∀ v, v ≠ u → s' !! v = s !! v.
Proof.
  destruct (s !! u) as [d|] eqn:Hs.
  - eexists _, _, _.
    split; [by apply (createTask_present s u d)|]. simpl.
    split; [done|].
    split; [by erewrite getTasks_present by apply lookup_insert_eq|].
    split; [apply lookup_insert_eq|]. simpl. split_and!; try done.
    intros v Hv. by apply lookup_insert_ne.
  - eexists _, _, _.
    split; [by apply createTask_absent|]. simpl.
    split; [done|].
    split; [by erewrite getTasks_present by apply lookup_insert_eq|].
    split; [apply lookup_insert_eq|]. simpl. split_and!; try done.
    intros v Hv. by apply lookup_insert_ne.
Qed.

(** *** deleteTask *)

Lemma task_names_absent_find (s : Trackings) u d taskName :
  s !! u = Some d →
  taskName ∉ task_names s u →
  find_task taskName (weeklyTasks d) = None.
Proof.
  intros Hs Hn. apply find_task_absent. unfold task_names in Hn.
  by rewrite Hs in Hn.
Qed.

Lemma filter_names_absent taskName (l : list Task) :
  taskName ∉ name <$> l → filter (λ t, name t ≠ taskName) l = l.
Proof.
  intros Hn. apply filter_all, Forall_forall. intros t Ht E.
  apply Hn, list_elem_of_fmap. by exists t.
Qed.

Lemma names_after_filter taskName (l : list Task) :
  taskName ∉ name <$> filter (λ t, name t ≠ taskName) l.
Proof.
  intros (t & -> & Ht)%list_elem_of_fmap.
  by apply list_elem_of_filter in Ht as [? _].
Qed.

(** X9. [deleteTask] throws NotFound for a user without a record. For a
    user with one it returns, also when no task bears the name, in which
    case the collection is left as it was; afterwards the weekly tasks
    are those of another name, in their order, so that [isCompleted],
    [setCompleted], [updateTask] and [promptChange] for the deleted name
    throw, and a second [deleteTask] changes nothing more. *)
Theorem deleteTask_removes (s : Trackings) u taskName :
  (s !! u = None →
   deleteTask u taskName s
   = (Throw (NotFoundError "Tracking document" u), s))
  ∧ ∀ d, s !! u = Some d →
      ∃ s',
        deleteTask u taskName s = (Ok "Task successfully deleted!", s')
        ∧ getTasks u s'
          = (Ok (filter (λ t, name t ≠ taskName) (weeklyTasks d)), s')
        ∧ (taskName ∉ name <$> weeklyTasks d → s' = s)
        ∧ is_Throw (fst (isCompleted u taskName s')) = true
        ∧ is_Throw (fst (setCompleted u taskName s')) = true
        ∧ (∀ r se w, is_Throw (fst (updateTask u taskName r se w s')) = true)
        ∧ (∀ c, is_Throw (fst (promptChange u taskName c s')) = true)
        ∧ deleteTask u taskName s' = (Ok "Task successfully deleted!", s').
Proof.
  split.
  - intros Hs. unfold deleteTask.
    by rewrite (bind_Throw _ _ _ _ _ (getTrackingDoc_absent s u Hs)).
  - intros d Hs.
    set (l' := filter (λ t, name t ≠ taskName) (weeklyTasks d)).
    set (d' := set_weeklyTasks l' d).
    assert (Hs' : (<[u := d']> s) !! u = Some d') by apply lookup_insert_eq.
    assert (Hnone : find_task taskName (weeklyTasks d') = None)
      by apply find_task_absent, names_after_filter.
    exists (<[u := d']> s). split_and!.
    + by apply deleteTask_present.
    + by rewrite (getTasks_present _ u d').
    + intros Hn. subst d' l'. rewrite filter_names_absent by done.
      destruct d. by apply insert_id.
    + unfold isCompleted.
      rewrite (bind_Ok _ _ _ _ _ (getTrackingDoc_present _ u d' Hs')).
      by rewrite Hnone.
    + unfold setCompleted.
      rewrite (bind_Ok _ _ _ _ _ (getTrackingDoc_present _ u d' Hs')).
      by rewrite Hnone.
    + intros r se w. unfold updateTask.
      rewrite (bind_Ok _ _ _ _ _ (getTrackingDoc_present _ u d' Hs')).
      by rewrite Hnone.
    + intros c. unfold promptChange.
      rewrite (bind_Ok _ _ _ _ _ (getTrackingDoc_present _ u d' Hs')).
      by rewrite Hnone.
    + rewrite (deleteTask_present _ u d' taskName Hs').
      rewrite insert_insert_eq. do 2 f_equal. subst d'. simpl.
      rewrite filter_names_absent by apply names_after_filter. done.
Qed.

Lemma deleteTask_removes_witness :
  ∃ s',
    deleteTask 7%N "squat" sample_store = (Ok "Task successfully deleted!", s')
    ∧ getTasks 7%N s'
      = (Ok (filter (λ t, name t ≠ "squat") (weeklyTasks sample_doc)), s')
    ∧ ("squat" ∉ name <$> weeklyTasks sample_doc → s' = sample_store)
    ∧ is_Throw (fst (isCompleted 7%N "squat" s')) = true
    ∧ is_Throw (fst (setCompleted 7%N "squat" s')) = true
    ∧ (∀ r se w, is_Throw (fst (updateTask 7%N "squat" r se w s')) = true)
    ∧ (∀ c, is_Throw (fst (promptChange 7%N "squat" c s')) = true)
    ∧ deleteTask 7%N "squat" s' = (Ok "Task successfully deleted!", s').
Proof.
  apply (proj2 (deleteTask_removes sample_store 7%N "squat") sample_doc).
  reflexivity.
Defined.

(** X10. Creating a task under a name that no task of the user bears and
    deleting it again leaves the collection as it was. *)
Theorem createTask_deleteTask (s : Trackings) u d taskName taskDescription
    reps0 sets0 startingWeight :
  s !! u = Some d →
  taskName ∉ name <$> weeklyTasks d →
  deleteTask u taskName
    (snd (createTask u taskName taskDescription reps0 sets0 startingWeight s))
  = (Ok "Task successfully deleted!", s).
Proof.
  intros Hs Hn.
  rewrite (createTask_present s u d) by done. simpl.
  erewrite deleteTask_present by apply lookup_insert_eq.
  rewrite insert_insert_eq. simpl.
  rewrite filter_app, filter_names_absent by done.
  rewrite filter_cons_False by (simpl; intros H; by apply H).
  rewrite filter_nil, app_nil_r.
  replace (set_weeklyTasks (weeklyTasks d) _) with d by (by destruct d).
  by rewrite insert_id.
Qed.

Lemma createTask_deleteTask_witness :
  deleteTask 7%N "plank"
    (snd (createTask 7%N "plank" "one minute" 1%float None None sample_store))
  = (Ok "Task successfully deleted!", sample_store).
Proof.
  apply (createTask_deleteTask sample_store 7%N sample_doc).
  - reflexivity.
  - refine (bool_decide_unpack _ _). vm_compute. exact I.
Defined.

(** *** Every operation at once *)

Lemma insert_same (s : Trackings) u d : s !! u = Some d → s = <[u := d]> s.
Proof. intros Hs. by rewrite insert_id. Qed.

(** With a record, an operation stores what [written] says, and throws
    exactly when the task it looks up is missing. *)
Lemma exec_present (op : Op) (s : Trackings) d :
  s !! op_user op = Some d →
  exec op s = <[op_user op := written op d]> s
  ∧ throws op s
    = match required_task op with
      | Some n => bool_decide (n ∉ name <$> weeklyTasks d)
      | None => false
      end.
Proof.
  intros Hs. destruct op; simpl in *.
  - by rewrite (createTask_present s u d).
  - destruct (decide (taskName ∈ name <$> weeklyTasks d)) as [Hin|Hn].
    + destruct (find_task_present _ _ Hin) as (i & t & Hf).
      rewrite (updateTask_run s u d taskName reps0 sets0 weight0 i t), Hf by done.
      by rewrite bool_decide_eq_false_2 by (by intros H; apply H).
    + unfold updateTask.
      rewrite (bind_Ok _ _ _ _ _ (getTrackingDoc_present s u d Hs)).
      rewrite (find_task_absent _ _ Hn). simpl.
      rewrite bool_decide_eq_true_2 by done. split; [by apply insert_same|done].
  - by rewrite (deleteTask_present s u d).
  - unfold setUserGoal. run. by rewrite (alter_present s u d).
  - destruct (decide (taskName ∈ name <$> weeklyTasks d)) as [Hin|Hn].
    + destruct (find_task_present _ _ Hin) as (i & t & Hf).
      destruct (setCompleted_run s u d taskName i t Hs Hf) as [m ->].
      rewrite Hf. by rewrite bool_decide_eq_false_2 by (by intros H; apply H).
    + unfold setCompleted.
      rewrite (bind_Ok _ _ _ _ _ (getTrackingDoc_present s u d Hs)).
      rewrite (find_task_absent _ _ Hn). simpl.
      rewrite bool_decide_eq_true_2 by done. split; [by apply insert_same|done].
  - destruct (decide (taskName ∈ name <$> weeklyTasks d)) as [Hin|Hn].
    + destruct (find_task_present _ _ Hin) as (i & t & Hf).
      rewrite (isCompleted_run s u d taskName i t) by done. simpl.
      by rewrite bool_decide_eq_false_2, <- insert_same
        by (done || by intros H; apply H).
    + unfold isCompleted.
      rewrite (bind_Ok _ _ _ _ _ (getTrackingDoc_present s u d Hs)).
      rewrite (find_task_absent _ _ Hn). simpl.
      rewrite bool_decide_eq_true_2 by done. split; [by apply insert_same|done].
  - unfold tasksCompleted.
    rewrite (bind_Ok _ _ _ _ _ (getTrackingDoc_present s u d Hs)).
    split; [by apply insert_same|done].
  - destruct (decide (taskName ∈ name <$> weeklyTasks d)) as [Hin|Hn].
    + destruct (find_task_present _ _ Hin) as (i & t & Hf).
      rewrite (promptChange_run s u d taskName currentDifficulty i t), Hf by done.
      by rewrite bool_decide_eq_false_2 by (by intros H; apply H).
    + unfold promptChange.
      rewrite (bind_Ok _ _ _ _ _ (getTrackingDoc_present s u d Hs)).
      rewrite (find_task_absent _ _ Hn). simpl.
      rewrite bool_decide_eq_true_2 by done. split; [by apply insert_same|done].
  - by rewrite (resetWeeklyTasks_present now s u d).
  - unfold getProgressHistory.
    rewrite (bind_Ok _ _ _ _ _ (getTrackingDoc_present s u d Hs)).
    split; [by apply insert_same|done].
  - unfold createTrackingDoc. run. rewrite Hs.
    split; [by apply insert_same|done].
  - rewrite (getTasks_present s u d) by done.
    split; [by apply insert_same|done].
  - unfold getCompletedPercentage.
    rewrite (bind_Ok _ _ _ _ _ (getTrackingDoc_present s u d Hs)).
    case_bool_decide; (split; [by apply insert_same|done]).
Qed.

(** Without a record, only [createTask] and [createTrackingDoc] write,
    and every method that begins with [getTrackingDoc] throws. *)
Lemma exec_absent (op : Op) (s : Trackings) :
  s !! op_user op = None →
  exec op s
  = match op with
    | CreateTask u n desc r se w =>
        <[u := mkTrackingDoc u "" [mkTask n desc r se w false JustRight] []]> s
    | CreateTrackingDoc u => <[u := mkTrackingDoc u "" [] []]> s
    | _ => s
    end
  ∧ throws op s = needs_record op.
Proof.
  intros Hs. destruct op; simpl in *;
    try (by rewrite createTask_absent);
    try (by rewrite createTrackingDoc_run, Hs);
    try (unfold setUserGoal; run; by rewrite alter_id by congruence).
  all: unfold updateTask, deleteTask, setCompleted, isCompleted, tasksCompleted,
         promptChange, resetWeeklyTasks, getProgressHistory, getTasks,
         getCompletedPercentage;
       by rewrite (bind_Throw _ _ _ _ _ (getTrackingDoc_absent s u Hs)).
Qed.

Lemma exec_other (op : Op) (s : Trackings) v :
  v ≠ op_user op → exec op s !! v = s !! v.
Proof.
  intros Hv. destruct (s !! op_user op) as [d|] eqn:Hs.
  - destruct (exec_present op s d Hs) as [-> _]. by rewrite lookup_insert_ne.
  - destruct (exec_absent op s Hs) as [-> _].
    destruct op; simpl in *; try done; by rewrite lookup_insert_ne.
Qed.

Lemma names_insert (l : list Task) i t t' :
  l !! i = Some t → name t' = name t → name <$> <[i := t']> l = name <$> l.
Proof.
  intros Hi Hn. rewrite list_fmap_insert, Hn.
  apply list_insert_id. by rewrite list_lookup_fmap, Hi.
Qed.

Lemma names_reset (l : list Task) :
  name <$> (set_completed false <$> l) = name <$> l.
Proof. rewrite <- list_fmap_compose. by apply list_fmap_ext. Qed.

(** An operation that throws has written nothing. *)
Lemma throws_present_same (op : Op) (s : Trackings) :
  throws op s = true → exec op s = s.
Proof.
  destruct (s !! op_user op) as [d|] eqn:Hs.
  - destruct (exec_present op s d Hs) as [-> ->].
    destruct op; simpl; try (intros ?; discriminate).
    all: intros Hn%bool_decide_eq_true;
      rewrite ?(find_task_absent _ _ Hn); by rewrite insert_id.
  - destruct (exec_absent op s Hs) as [-> ->]. by destruct op.
Qed.

(** X11. Which operations throw, and what a throw leaves behind.
    [createTask], [setUserGoal] and [createTrackingDoc] never throw;
    every other operation throws exactly when its user has no record or
    when it looks a task up by name and no task of the user bears that
    name; an operation that throws leaves the collection as it was. *)
Theorem throws_exactly (op : Op) (s : Trackings) :
  (throws op s = true
   ↔ needs_record op = true
     ∧ (s !! op_user op = None
        ∨ ∃ n, required_task op = Some n ∧ n ∉ task_names s (op_user op)))
  ∧ (throws op s = true → exec op s = s).
Proof.
  unfold task_names. destruct (s !! op_user op) as [d|] eqn:Hs.
  - destruct (exec_present op s d Hs) as [-> ->]. simpl. split.
    + destruct op; simpl; split; intros H.
      all: lazymatch type of H with
           | false = true => discriminate H
           | false = true ∧ _ => destruct H as [H _]; discriminate H
           | _ ∧ (_ ∨ ∃ n, None = Some n ∧ _) =>
               destruct H as [_ [H | (n & H & _)]]; discriminate H
           | bool_decide _ = true =>
               apply bool_decide_eq_true in H; split; [done|]; right; by eauto
           | _ =>
               destruct H as [_ [H | (n & [= <-] & H)]];
               [discriminate H | by apply bool_decide_eq_true]
           end.
    + destruct op; simpl; try (intros ?; discriminate).
      all: intros Hn%bool_decide_eq_true;
        rewrite ?(find_task_absent _ _ Hn); by rewrite insert_id.
  - destruct (exec_absent op s Hs) as [-> ->]. split.
    + split; [by auto|by intros [? _]].
    + by destruct op.
Qed.

(** X12. Operations called for other users leave a user's record,
    present or absent, as it was: this holds for one operation and for
    any sequence of operations none of which is called for that user. *)
Theorem other_users_untouched (ops : list Op) (s : Trackings) v :
  Forall (λ op, op_user op ≠ v) ops →
  foldl (λ st op, exec op st) s ops !! v = s !! v.
Proof.
  intros Hops. revert s.
  induction Hops as [|op ops Hop _ IH]; intros s; [done|].
  simpl. rewrite IH. by apply exec_other.
Qed.

Lemma other_users_untouched_witness :
  foldl (λ st op, exec op st) (<[8%N := empty_doc]> sample_store)
    [DeleteTask 7%N "squat"; ResetWeeklyTasks (mkDate 20000 0) 7%N] !! 8%N
  = (<[8%N := empty_doc]> sample_store) !! 8%N.
Proof.
  apply (other_users_untouched
           [DeleteTask 7%N "squat"; ResetWeeklyTasks (mkDate 20000 0) 7%N]).
  refine (bool_decide_unpack _ _). vm_compute. exact I.
Defined.

(** X13. The names of a user's weekly tasks, in their order, and so the
    number of the tasks, change by [createTask] and [deleteTask] only:
    every other operation, whether it returns or throws, leaves them as
    they were. *)
Theorem task_names_kept (op : Op) (s : Trackings) v :
  changes_task_list op = false →
  task_names (exec op s) v = task_names s v.
Proof.
  intros Hop. unfold task_names.
  destruct (decide (v = op_user op)) as [->|Hv];
    [|by rewrite exec_other].
  destruct (s !! op_user op) as [d|] eqn:Hs.
  - destruct (exec_present op s d Hs) as [-> _]. rewrite lookup_insert_eq.
    destruct op; simpl in *; try done.
    + destruct (find_task _ _) as [[i t]|] eqn:Hf; [|done]. simpl.
      apply find_task_Some in Hf as (Hi & _ & _).
      apply (names_insert _ i t); [done|].
      by destruct reps0, sets0, weight0.
    + destruct (find_task _ _) as [[i t]|] eqn:Hf; [|done]. simpl.
      apply find_task_Some in Hf as (Hi & _ & _).
      by apply (names_insert _ i t).
    + destruct (find_task _ _) as [[i t]|] eqn:Hf; [|done]. simpl.
      apply find_task_Some in Hf as (Hi & _ & _).
      by apply (names_insert _ i t).
    + apply names_reset.
  - destruct (exec_absent op s Hs) as [-> _].
    destruct op; simpl in *; try done; by rewrite ?Hs, ?lookup_insert_eq.
Qed.

Lemma task_names_kept_witness :
  task_names (exec (ResetWeeklyTasks (mkDate 20000 0) 7%N) sample_store) 7%N
  = task_names sample_store 7%N.
Proof.
  apply (task_names_kept (ResetWeeklyTasks (mkDate 20000 0) 7%N)). reflexivity.
Defined.

(** X14. The progress history grows by [resetWeeklyTasks] only: every
    other operation leaves the history of every user exactly as it was,
    and a reset for a user with a record makes it longer by one entry. *)
Theorem history_changes_by_reset_only (op : Op) (s : Trackings) v :
  (is_reset op = false → history (exec op s) v = history s v)
  ∧ (is_reset op = true → is_Some (s !! v) → v = op_user op →
     ∃ entry, history (exec op s) v = history s v ++ [entry]).
Proof.
  unfold history. split.
  - intros Hop. destruct (decide (v = op_user op)) as [->|Hv];
      [|by rewrite exec_other].
    destruct (s !! op_user op) as [d|] eqn:Hs.
    + destruct (exec_present op s d Hs) as [-> _]. rewrite lookup_insert_eq.
      destruct op; simpl in *; try done;
        by destruct (find_task _ _) as [[i t]|].
    + destruct (exec_absent op s Hs) as [-> _].
      destruct op; simpl in *; try done; by rewrite ?Hs, ?lookup_insert_eq.
  - intros Hop [d Hs] ->.
    destruct (exec_present op s d Hs) as [-> _]. rewrite lookup_insert_eq, Hs.
    destruct op; try discriminate. simpl. eauto.
Qed.

(** X15. The goal of a user changes by [setUserGoal] only: every other
    operation leaves the goal of every user as it was (a user without a
    record counting as having the empty goal, which is what a newly
    created record holds). *)
Theorem goal_changes_by_setUserGoal_only (op : Op) (s : Trackings) v :
  (∀ u goal, op ≠ SetUserGoal u goal) →
  from_option userGoal "" (exec op s !! v) = from_option userGoal "" (s !! v).
Proof.
  intros Hop. destruct (decide (v = op_user op)) as [->|Hv];
    [|by rewrite exec_other].
  destruct (s !! op_user op) as [d|] eqn:Hs.
  - destruct (exec_present op s d Hs) as [-> _]. rewrite lookup_insert_eq.
    destruct op; simpl in *; try done;
      try (by destruct (find_task _ _) as [[i t]|]).
    by destruct (Hop u goal).
  - destruct (exec_absent op s Hs) as [-> _].
    destruct op; simpl in *; try done; by rewrite ?Hs, ?lookup_insert_eq.
Qed.

Lemma goal_changes_by_setUserGoal_only_witness :
  from_option userGoal "" (exec (PromptChange 7%N "squat" Easy) sample_store !! 7%N)
  = from_option userGoal "" (sample_store !! 7%N).
Proof.
  apply (goal_changes_by_setUserGoal_only (PromptChange 7%N "squat" Easy)).
  intros u goal. discriminate.
Defined.

(** *** setUserGoal *)

(** X16. [setUserGoal] always returns. For a user with a record it
    stores the goal and leaves tasks and history as they are, a later
    call overriding an earlier one; for a user without a record it
    stores nothing: the user still has no record afterwards, and the
    record that [createTrackingDoc] then creates has the empty goal. *)
Theorem setUserGoal_stores_or_drops (s : Trackings) u goal :
  fst (setUserGoal u goal s) = Ok ("User goal successfully updated!", goal)
  ∧ (∀ d, s !! u = Some d →
       snd (setUserGoal u goal s)
       = <[u := mkTrackingDoc (user d) goal (weeklyTasks d) (progressHistory d)]> s
       ∧ ∀ goal', snd (setUserGoal u goal' (snd (setUserGoal u goal s)))
                  = snd (setUserGoal u goal' s))
  ∧ (s !! u = None →
       snd (setUserGoal u goal s) = s
       ∧ fst (createTrackingDoc u (snd (setUserGoal u goal s)))
         = Ok (Some (mkTrackingDoc u "" [] []))).
Proof.
  split; [done|]. split.
  - intros d Hs.
    assert (E : ∀ g (s0 : Trackings) d0, s0 !! u = Some d0 →
              snd (setUserGoal u g s0) = <[u := set_userGoal g d0]> s0).
    { intros g s0 d0 Hs0. unfold setUserGoal. run.
      by rewrite (alter_present s0 u d0). }
    rewrite (E goal s d Hs). split; [done|]. intros goal'.
    rewrite (E goal' _ (set_userGoal goal d)) by apply lookup_insert_eq.
    by rewrite (E goal' s d Hs), insert_insert_eq.
  - intros Hs.
    assert (E : snd (setUserGoal u goal s) = s).
    { unfold setUserGoal. run. apply alter_id. intros x. congruence. }
    rewrite E. split; [done|]. by rewrite createTrackingDoc_run, Hs.
Qed.

(** *** After a reset *)

Lemma find_task_fmap_completed taskName (l : list Task) i t :
  find_task taskName l = Some (i, t) →
  find_task taskName (set_completed false <$> l)
  = Some (i, set_completed false t).
Proof.
  intros (Hi & Hn & Hfirst)%find_task_Some. apply list_find_Some. split_and!.
  - by rewrite list_lookup_fmap, Hi.
  - done.
  - intros j t0. rewrite list_lookup_fmap.
    destruct (l !! j) as [t1|] eqn:Hj; [|done]. intros [= <-] Hlt. simpl.
    by apply (Hfirst j t1).
Qed.

Lemma filter_completed_reset (l : list Task) :
  filter (λ t, completed t) (set_completed false <$> l) = [].
Proof.
  induction l as [|t l IH]; [done|].
  rewrite fmap_cons, filter_cons_False; [done|]. simpl. tauto.
Qed.

Lemma forallb_completed_reset (l : list Task) :
  forallb completed (set_completed false <$> l) = bool_decide (l = []).
Proof. by destruct l. Qed.

(** X17. After [resetWeeklyTasks] for a user with a record, no task of
    the user is completed: [isCompleted] returns false for every name
    that occurs in the weekly tasks, and [tasksCompleted] returns true
    exactly when the user has no task at all. *)
Theorem reset_then_nothing_completed (now : Date) (s : Trackings) u d :
  s !! u = Some d →
  (∀ taskName, taskName ∈ name <$> weeklyTasks d →
     fst (isCompleted u taskName (snd (resetWeeklyTasks now u s))) = Ok false)
  ∧ fst (tasksCompleted u (snd (resetWeeklyTasks now u s)))
    = Ok (bool_decide (weeklyTasks d = [])).
Proof.
  intros Hs. rewrite (resetWeeklyTasks_present now s u d Hs). simpl. split.
  - intros taskName Hin.
    destruct (find_task_present _ _ Hin) as (i & t & Hf).
    erewrite isCompleted_run;
      [|apply lookup_insert_eq|by apply find_task_fmap_completed].
    done.
  - unfold tasksCompleted.
    erewrite bind_Ok
      by (apply getTrackingDoc_present, lookup_insert_eq).
    simpl. by rewrite forallb_completed_reset.
Qed.

Lemma reset_then_nothing_completed_witness :
  (∀ taskName, taskName ∈ name <$> weeklyTasks sample_doc →
     fst (isCompleted 7%N taskName
            (snd (resetWeeklyTasks (mkDate 20000 0) 7%N sample_store)))
     = Ok false)
  ∧ fst (tasksCompleted 7%N
           (snd (resetWeeklyTasks (mkDate 20000 0) 7%N sample_store)))
    = Ok (bool_decide (weeklyTasks sample_doc = [])).
Proof.
  apply (reset_then_nothing_completed (mkDate 20000 0) sample_store 7%N
           sample_doc).
  reflexivity.
Defined.

(** X18. A second [resetWeeklyTasks] right after a first archives an
    entry without tasks and leaves the weekly tasks as the first reset
    left them; [getProgressHistory] then returns the history from before
    followed by the entry of the first reset, which holds the tasks that
    were completed, and the empty entry of the second. *)
Theorem reset_twice (now1 now2 : Date) (s : Trackings) u d :
  s !! u = Some d →
  ∃ s2,
    snd (resetWeeklyTasks now2 u (snd (resetWeeklyTasks now1 u s))) = s2
    ∧ getProgressHistory u s2
      = (Ok (progressHistory d
              ++ [mkProgressEntry (getStartOfWeek now1)
                    (filter (λ t, completed t) (weeklyTasks d));
                  mkProgressEntry (getStartOfWeek now2) []]), s2)
    ∧ getTasks u s2 = (Ok (set_completed false <$> weeklyTasks d), s2)
    ∧ getTasks u (snd (resetWeeklyTasks now1 u s))
      = (Ok (set_completed false <$> weeklyTasks d),
         snd (resetWeeklyTasks now1 u s)).
Proof.
  intros Hs. rewrite (resetWeeklyTasks_present now1 s u d Hs). simpl.
  erewrite resetWeeklyTasks_present by apply lookup_insert_eq. simpl.
  eexists. split; [reflexivity|]. split_and!.
  - unfold getProgressHistory.
    erewrite bind_Ok by (apply getTrackingDoc_present, lookup_insert_eq).
    simpl. by rewrite filter_completed_reset, <- app_assoc.
  - erewrite getTasks_present by apply lookup_insert_eq. simpl.
    replace (set_completed false <$> (set_completed false <$> weeklyTasks d))
      with (set_completed false <$> weeklyTasks d); [done|].
    rewrite <- list_fmap_compose. apply list_fmap_ext. by intros i [].
  - by erewrite getTasks_present by apply lookup_insert_eq.
Qed.

Lemma reset_twice_witness :
  ∃ s2,
    snd (resetWeeklyTasks (mkDate 20007 0) 7%N
           (snd (resetWeeklyTasks (mkDate 20000 0) 7%N sample_store))) = s2
    ∧ getProgressHistory 7%N s2
      = (Ok (progressHistory sample_doc
              ++ [mkProgressEntry (getStartOfWeek (mkDate 20000 0))
                    (filter (λ t, completed t) (weeklyTasks sample_doc));
                  mkProgressEntry (getStartOfWeek (mkDate 20007 0)) []]), s2)
    ∧ getTasks 7%N s2 = (Ok (set_completed false <$> weeklyTasks sample_doc), s2)
    ∧ getTasks 7%N (snd (resetWeeklyTasks (mkDate 20000 0) 7%N sample_store))
      = (Ok (set_completed false <$> weeklyTasks sample_doc),
         snd (resetWeeklyTasks (mkDate 20000 0) 7%N sample_store)).
Proof.
  apply (reset_twice (mkDate 20000 0) (mkDate 20007 0) sample_store 7%N
           sample_doc).
  reflexivity.
Defined.

(** *** Two reports in a row *)

(** X19. The message of [promptChange] depends on the difficulty
    reported by the call before, whatever the task's state was before
    that: after a first report [c1], a second report [c2] on the same
    task returns no suggestion when [c1] and [c2] differ or [c2] is
    JustRight, and for twice Easy or twice Difficult the suggestion that
    belongs to the user's goal; the task is then stored with [c2]. *)
Theorem promptChange_twice (s : Trackings) u d taskName c1 c2 :
  s !! u = Some d →
  taskName ∈ name <$> weeklyTasks d →
  ∃ msg t2,
    fst (promptChange u taskName c2 (snd (promptChange u taskName c1 s)))
    = Ok (msg, t2)
    ∧ previousDifficulty t2 = c2
    ∧ (c1 ≠ c2 → msg = "No changes suggested!")
    ∧ (c2 = JustRight → msg = "No changes suggested!")
    ∧ (c1 = Easy → c2 = Easy → userGoal d = "strength" →
       msg = "Consider increasing the weight.")
    ∧ (c1 = Easy → c2 = Easy → userGoal d ≠ "strength" →
       msg = "Consider increasing the reps.")
    ∧ (c1 = Difficult → c2 = Difficult →
       userGoal d = "muscle" ∨ userGoal d = "endurance" →
       msg = "Consider decreasing the weight by 5 lbs.")
    ∧ (c1 = Difficult → c2 = Difficult → userGoal d = "strength" →
       msg = "Consider decreasing the reps by 2.").
Proof.
  intros Hs Hin.
  destruct (find_task_present _ _ Hin) as (i & t & Hf).
  rewrite (promptChange_run s u d taskName c1 i t Hs Hf). simpl.
  erewrite promptChange_run;
    [|apply lookup_insert_eq
     |by apply (find_task_insert taskName (weeklyTasks d) i t)].
  simpl. eexists _, _. split; [reflexivity|]. simpl.
  unfold suggestion_for. split_and!.
  - done.
  - intros Hne. by destruct c1, c2.
  - intros ->. by destruct c1.
  - by intros -> -> ->.
  - intros -> -> Hg. simpl. by rewrite bool_decide_eq_false_2.
  - by intros -> -> [-> | ->].
  - by intros -> -> ->.
Qed.

Lemma promptChange_twice_witness :
  ∃ msg t2,
    fst (promptChange 7%N "run" Easy (snd (promptChange 7%N "run" Easy sample_store)))
    = Ok (msg, t2)
    ∧ previousDifficulty t2 = Easy
    ∧ (Easy ≠ Easy → msg = "No changes suggested!")
    ∧ (Easy = JustRight → msg = "No changes suggested!")
    ∧ (Easy = Easy → Easy = Easy → userGoal sample_doc = "strength" →
       msg = "Consider increasing the weight.")
    ∧ (Easy = Easy → Easy = Easy → userGoal sample_doc ≠ "strength" →
       msg = "Consider increasing the reps.")
    ∧ (Easy = Difficult → Easy = Difficult →
       userGoal sample_doc = "muscle" ∨ userGoal sample_doc = "endurance" →
       msg = "Consider decreasing the weight by 5 lbs.")
    ∧ (Easy = Difficult → Easy = Difficult → userGoal sample_doc = "strength" →
       msg = "Consider decreasing the reps by 2.").
Proof.
  apply (promptChange_twice sample_store 7%N sample_doc "run" Easy Easy).
  - reflexivity.
  - refine (bool_decide_unpack _ _). vm_compute. exact I.
Defined.

(** *** Two updates in a row *)

Lemma updated_updated r1 se1 w1 r2 se2 w2 (t : Task) :
  updated r2 se2 w2 (updated r1 se1 w1 t)
  = updated (r2 ∪ r1) (se2 ∪ se1) (w2 ∪ w1) t.
Proof. by destruct r1, se1, w1, r2, se2, w2. Qed.

(** X20. Two calls of [updateTask] on the same task amount to one call
    in which each field takes the value of the second call where that
    call provides one and of the first call otherwise; a call that
    provides no field leaves the collection as it was. *)
Theorem updateTask_twice (s : Trackings) u d taskName r1 se1 w1 r2 se2 w2 :
  s !! u = Some d →
  taskName ∈ name <$> weeklyTasks d →
  updateTask u taskName r2 se2 w2 (snd (updateTask u taskName r1 se1 w1 s))
  = updateTask u taskName (r2 ∪ r1) (se2 ∪ se1) (w2 ∪ w1) s
  ∧ snd (updateTask u taskName None None None s) = s.
Proof.
  intros Hs Hin.
  destruct (find_task_present _ _ Hin) as (i & t & Hf).
  pose proof (find_task_Some _ _ _ _ Hf) as (Hi & _ & _).
  split.
  - rewrite (updateTask_run s u d taskName r1 se1 w1 i t Hs Hf). simpl.
    erewrite updateTask_run;
      [|apply lookup_insert_eq
       |apply (find_task_insert taskName (weeklyTasks d) i t); [done|];
        by destruct r1, se1, w1].
    rewrite (updateTask_run s u d taskName _ _ _ i t Hs Hf).
    simpl. by rewrite insert_insert_eq, list_insert_insert_eq, updated_updated.
  - rewrite (updateTask_run s u d taskName None None None i t Hs Hf). simpl.
    unfold updated. simpl. rewrite list_insert_id by done.
    destruct d. by apply insert_id.
Qed.

Lemma updateTask_twice_witness :
  updateTask 7%N "squat" None (Some 4%float) None
    (snd (updateTask 7%N "squat" (Some 12%float) (Some 5%float) None sample_store))
  = updateTask 7%N "squat" (None ∪ Some 12%float) (Some 4%float ∪ Some 5%float)
      (None ∪ None) sample_store
  ∧ snd (updateTask 7%N "squat" None None None sample_store) = sample_store.
Proof.
  apply (updateTask_twice sample_store 7%N sample_doc "squat").
  - reflexivity.
  - refine (bool_decide_unpack _ _). vm_compute. exact I.
Defined.

(** *** setCompleted *)

(** X21. [setCompleted] on a name that occurs negates the [completed]
    flag of the first task of that name and changes nothing else: the
    other fields of the task, every other task, the goal and the history
    are as before; the message says "completed" exactly when the flag is
    now true. *)
Theorem setCompleted_frame (s : Trackings) u d taskName :
  s !! u = Some d →
  taskName ∈ name <$> weeklyTasks d →
  ∃ i t t' s' d',
    find_task taskName (weeklyTasks d) = Some (i, t)
    ∧ setCompleted u taskName s
      = (Ok ("Task '" +:+ taskName +:+ "' marked as "
             +:+ (if completed t' then "completed" else "incomplete") +:+ "!"),
         s')
    ∧ s' !! u = Some d'
    ∧ weeklyTasks d' !! i = Some t'
    ∧ completed t' = negb (completed t)
    ∧ name t' = name t
    ∧ description t' = description t
    ∧ reps t' = reps t
    ∧ sets t' = sets t
    ∧ weight t' = weight t
    ∧ previousDifficulty t' = previousDifficulty t
    ∧ (∀ j, j ≠ i → weeklyTasks d' !! j = weeklyTasks d !! j)
    ∧ length (weeklyTasks d') = length (weeklyTasks d)
    ∧ userGoal d' = userGoal d
    ∧ progressHistory d' = progressHistory d.
Proof.
  intros Hs Hin.
  destruct (find_task_present _ _ Hin) as (i & t & Hf).
  pose proof (find_task_Some _ _ _ _ Hf) as (Hi & _ & _).
  exists i, t, (set_completed (negb (completed t)) t),
    (<[u := set_weeklyTasks
              (<[i := set_completed (negb (completed t)) t]> (weeklyTasks d))
              d]> s),
    (set_weeklyTasks
       (<[i := set_completed (negb (completed t)) t]> (weeklyTasks d)) d).
  split_and!; try done.
  - unfold setCompleted.
    rewrite (bind_Ok _ _ _ _ _ (getTrackingDoc_present s u d Hs)).
    rewrite Hf. run. by rewrite (alter_present s u d).
  - apply lookup_insert_eq.
  - simpl. apply list_lookup_insert_eq. by eapply lookup_lt_Some.
  - intros j Hj. simpl. by apply list_lookup_insert_ne.
  - simpl. apply length_insert.
Qed.

Lemma setCompleted_frame_witness :
  ∃ i t t' s' d',
    find_task "squat" (weeklyTasks sample_doc) = Some (i, t)
    ∧ setCompleted 7%N "squat" sample_store
      = (Ok ("Task '" +:+ "squat" +:+ "' marked as "
             +:+ (if completed t' then "completed" else "incomplete") +:+ "!"),
         s')
    ∧ s' !! 7%N = Some d'
    ∧ weeklyTasks d' !! i = Some t'
    ∧ completed t' = negb (completed t)
    ∧ name t' = name t
    ∧ description t' = description t
    ∧ reps t' = reps t
    ∧ sets t' = sets t
    ∧ weight t' = weight t
    ∧ previousDifficulty t' = previousDifficulty t
    ∧ (∀ j, j ≠ i → weeklyTasks d' !! j = weeklyTasks sample_doc !! j)
    ∧ length (weeklyTasks d') = length (weeklyTasks sample_doc)
    ∧ userGoal d' = userGoal sample_doc
    ∧ progressHistory d' = progressHistory sample_doc.
Proof.
  apply (setCompleted_frame sample_store 7%N sample_doc "squat").
  - reflexivity.
  - refine (bool_decide_unpack _ _). vm_compute. exact I.
Defined.

(** *** The start of the week *)


(** *** The routes *)

(** X23. The route that creates a task answers "Task created
    successfully!" for every user and all arguments, having stored what
    [createTask] stores: it never throws and never gives its other
    answer. *)
Theorem route_createTask_succeeds (s : Trackings) u taskName taskDescription
    reps0 sets0 startingWeight :
  Routes.createTask u taskName taskDescription reps0 sets0 startingWeight s
  = (Ok "Task created successfully!",
     snd (createTask u taskName taskDescription reps0 sets0 startingWeight s))
  ∧ is_Some (snd (createTask u taskName taskDescription reps0 sets0
                    startingWeight s) !! u).
Proof.
  unfold Routes.createTask.
  destruct (s !! u) as [d|] eqn:Hs.
  - erewrite bind_Ok by (by apply (createTask_present s u d)).
    rewrite (createTask_present s u d) by done. simpl.
    by rewrite lookup_insert_eq.
  - erewrite bind_Ok by (by apply createTask_absent).
    rewrite createTask_absent by done. simpl.
    by rewrite lookup_insert_eq.
Qed.

(** X24. The prompt route throws when [promptChange] throws, with
    nothing written; when it returns, its message is the suggestion
    text or "No changes suggested!", and its field [suggestion] is never
    null: it holds the task as it is now stored, with the reported
    difficulty, not the text. *)
Theorem route_promptChange_response (s : Trackings) u taskName c :
  (is_Throw (fst (promptChange u taskName c s)) = true →
   is_Throw (fst (Routes.promptChange u taskName c s)) = true
   ∧ snd (Routes.promptChange u taskName c s) = s)
  ∧ (∀ msg task s',
       promptChange u taskName c s = (Ok (msg, task), s') →
       Routes.promptChange u taskName c s = (Ok (msg, Some task), s')
       ∧ previousDifficulty task = c
       ∧ ∃ d' i, s' !! u = Some d' ∧ weeklyTasks d' !! i = Some task).
Proof.
  unfold Routes.promptChange. split.
  - intros Hthrow.
    destruct (promptChange u taskName c s) as [[r|e] s1] eqn:E; [done|].
    rewrite (bind_Throw _ _ _ _ _ E). split; [done|]. simpl.
    pose proof (throws_present_same (PromptChange u taskName c) s) as H.
    simpl in H. rewrite E in H. by apply H.
  - intros msg task s' E. rewrite (bind_Ok _ _ _ _ _ E). split; [done|].
    destruct (s !! u) as [d|] eqn:Hs.
    + destruct (find_task taskName (weeklyTasks d)) as [[i t]|] eqn:Hf.
      * rewrite (promptChange_run s u d taskName c i t Hs Hf) in E.
        injection E as <- <- <-. split; [done|].
        eexists _, i. split; [apply lookup_insert_eq|]. simpl.
        apply list_lookup_insert_eq.
        apply find_task_Some in Hf as (Hi & _). by eapply lookup_lt_Some.
      * unfold promptChange in E.
        rewrite (bind_Ok _ _ _ _ _ (getTrackingDoc_present s u d Hs)), Hf in E.
        discriminate E.
    + unfold promptChange in E.
      rewrite (bind_Throw _ _ _ _ _ (getTrackingDoc_absent s u Hs)) in E.
      discriminate E.
Qed.

End TrackingLaws.

(** ** PointingConcept: life cycle and invariants *)

Module PointingLaws.
Import DocCollection Pointing PointingFacts.

Lemma checkVerifiedPost_Ok u d amount verifiedPost (s s' : Points) posts :
  checkVerifiedPost u d amount verifiedPost s = (Ok posts, s') →
  s' = s
  ∧ (verifiedPost = None ∧ posts = verifiedPosts d
     ∨ ∃ post, verifiedPost = Some post
        ∧ ((PrimFloat.leb PrimFloat.zero amount = true
            ∧ (post ∉ verifiedPosts d)
            ∧ posts = verifiedPosts d ++ [post])
           ∨ (PrimFloat.ltb amount PrimFloat.zero = true
              ∧ post ∈ verifiedPosts d
              ∧ posts = filter (λ e, e ≠ post) (verifiedPosts d)))).
Proof.
  unfold checkVerifiedPost. destruct verifiedPost as [post|].
  - destruct (PrimFloat.leb PrimFloat.zero amount) eqn:Hle;
      destruct (includes (verifiedPosts d) post) eqn:Hinc;
      destruct (PrimFloat.ltb amount PrimFloat.zero) eqn:Hlt;
      simpl; intros H; try discriminate H; injection H as <- <-;
      (split; [done|]); right; exists post; (split; [done|]).
    all: first [apply includes_true in Hinc | apply includes_false in Hinc].
    all: first [by left | by right].
  - intros [= <- <-]. auto.
Qed.

(** What a returning [awardPoints] has done. *)
Lemma awardPoints_returns (s : Points) u d amount verifiedPost :
  s !! u = Some d →
  is_Throw (fst (awardPoints u amount verifiedPost s)) = false →
  ∃ posts,
    checkVerifiedPost u d amount verifiedPost s = (Ok posts, s)
    ∧ PrimFloat.ltb (PrimFloat.add (points d) amount) PrimFloat.zero = false
    ∧ awardPoints u amount verifiedPost s
      = (Ok (Some (mkPointDoc (user d) (PrimFloat.add (points d) amount) posts)),
         <[u := mkPointDoc (user d) (PrimFloat.add (points d) amount) posts]> s).
Proof.
  intros Hs. unfold awardPoints.
  rewrite (bind_Ok _ _ _ _ _ (eq_refl : readOne u s = (Ok (s !! u), s))).
  rewrite Hs.
  destruct (checkVerifiedPost u d amount verifiedPost s) as [[posts|e] s1] eqn:Hc.
  - destruct (checkVerifiedPost_Ok _ _ _ _ _ _ _ Hc) as [-> _].
    rewrite (bind_Ok _ _ _ _ _ Hc).
    destruct (PrimFloat.ltb (PrimFloat.add (points d) amount) PrimFloat.zero)
      eqn:Hneg; run; [done|].
    intros _. exists posts. split_and!; [done..|].
    rewrite (alter_present s u d) by done. by rewrite lookup_insert_eq.
  - by rewrite (bind_Throw _ _ _ _ _ Hc).
Qed.

Lemma checkVerifiedPost_state u d amount verifiedPost (s : Points) :
  snd (checkVerifiedPost u d amount verifiedPost s) = s.
Proof.
  unfold checkVerifiedPost. destruct verifiedPost as [post|]; [|done].
  by repeat case_match.
Qed.

(** A throwing [awardPoints] has written nothing. *)
Lemma awardPoints_throw_same (s : Points) u amount verifiedPost :
  is_Throw (fst (awardPoints u amount verifiedPost s)) = true →
  snd (awardPoints u amount verifiedPost s) = s.
Proof.
  unfold awardPoints.
  rewrite (bind_Ok _ _ _ _ _ (eq_refl : readOne u s = (Ok (s !! u), s))).
  destruct (s !! u) as [d|]; [|done].
  pose proof (checkVerifiedPost_state u d amount verifiedPost s) as Hst.
  destruct (checkVerifiedPost u d amount verifiedPost s) as [[posts|e] s1] eqn:Hc;
    simpl in Hst; subst s1.
  - rewrite (bind_Ok _ _ _ _ _ Hc).
    destruct (PrimFloat.ltb (PrimFloat.add (points d) amount) PrimFloat.zero);
      run; done.
  - by rewrite (bind_Throw _ _ _ _ _ Hc).
Qed.

Lemma awardPoints_absent (s : Points) u amount verifiedPost :
  s !! u = None →
  awardPoints u amount verifiedPost s = (Throw (NotFoundError "Points" u), s).
Proof.
  intros Hs. unfold awardPoints.
  rewrite (bind_Ok _ _ _ _ _ (eq_refl : readOne u s = (Ok (s !! u), s))).
  by rewrite Hs.
Qed.

Lemma getPoints_lookup (s : Points) u :
  getPoints u s
  = (match s !! u with
     | Some d => Ok d
     | None => Throw (NotFoundError "Points" u)
     end, s).
Proof. unfold getPoints. run. by destruct (s !! u). Qed.

(** X1. [create] of a user without a points document stores and returns
    a document with zero points and no verified post, which [getPoints]
    then returns, other users being untouched; [create] of a user who has
    one throws ExistingUserPointsError and changes nothing. *)
Theorem create_fresh_or_existing (s : Points) u :
  (s !! u = None →
   create u s
   = (Ok (Some (mkPointDoc u PrimFloat.zero [])),
      <[u := mkPointDoc u PrimFloat.zero []]> s)
   ∧ getPoints u (snd (create u s))
     = (Ok (mkPointDoc u PrimFloat.zero []), snd (create u s))
   ∧ ∀ v, v ≠ u → snd (create u s) !! v = s !! v)
  ∧ (is_Some (s !! u) →
     create u s = (Throw (ExistingUserPointsError u), s)).
Proof.
  split.
  - intros Hs.
    assert (E : create u s
                = (Ok (Some (mkPointDoc u PrimFloat.zero [])),
                   <[u := mkPointDoc u PrimFloat.zero []]> s)).
    { unfold create. run. rewrite Hs. simpl. by rewrite lookup_insert_eq. }
    rewrite E. simpl. split_and!; [done| |].
    + by rewrite getPoints_lookup, lookup_insert_eq.
    + intros v Hv. by rewrite lookup_insert_ne.
  - intros [d Hs]. unfold create. run. by rewrite Hs.
Qed.

(** X2. [delete] removes the user's document, whether there was one or
    not, and touches no other user; for a user without a document
    [getPoints] and [awardPoints] throw NotFound and change nothing, and
    [create] succeeds again after a [delete]. *)
Theorem delete_then_absent (s : Points) u :
  snd (delete u s) !! u = None
  ∧ (∀ v, v ≠ u → snd (delete u s) !! v = s !! v)
  ∧ (s !! u = None → snd (delete u s) = s)
  ∧ is_Throw (fst (delete u s)) = false
  ∧ (∀ s0 : Points, s0 !! u = None →
       getPoints u s0 = (Throw (NotFoundError "Points" u), s0)
       ∧ ∀ amount verifiedPost,
           awardPoints u amount verifiedPost s0
           = (Throw (NotFoundError "Points" u), s0))
  ∧ is_Throw (fst (create u (snd (delete u s)))) = false.
Proof.
  assert (E : snd (delete u s) = base.delete u s) by reflexivity.
  rewrite E. split_and!.
  - apply lookup_delete_eq.
  - intros v Hv. by apply lookup_delete_ne.
  - intros Hs. by apply delete_id.
  - done.
  - intros s0 Hs0. split.
    + by rewrite getPoints_lookup, Hs0.
    + intros. by apply awardPoints_absent.
  - unfold create. run. by rewrite lookup_delete_eq.
Qed.

(** X3. Whenever [awardPoints] returns for a user with a points
    document, the document it returns is the one now stored: its points
    are the old points plus the amount and are not below zero; without a
    verified post the verified posts are as before, with one and an
    amount of at least zero the post is appended, with one and an amount
    below zero the post is removed; no other user is touched. *)
Theorem awardPoints_effect (s : Points) u d amount verifiedPost :
  s !! u = Some d →
  is_Throw (fst (awardPoints u amount verifiedPost s)) = false →
  ∃ d',
    fst (awardPoints u amount verifiedPost s) = Ok (Some d')
    ∧ snd (awardPoints u amount verifiedPost s) !! u = Some d'
    ∧ points d' = PrimFloat.add (points d) amount
    ∧ PrimFloat.ltb (points d') PrimFloat.zero = false
    ∧ user d' = user d
    ∧ (verifiedPost = None → verifiedPosts d' = verifiedPosts d)
    ∧ (∀ post, verifiedPost = Some post →
         (PrimFloat.leb PrimFloat.zero amount = true
          ∧ (post ∉ verifiedPosts d)
          ∧ verifiedPosts d' = verifiedPosts d ++ [post])
         ∨ (PrimFloat.ltb amount PrimFloat.zero = true
            ∧ post ∈ verifiedPosts d
            ∧ (post ∉ verifiedPosts d')
            ∧ verifiedPosts d' = filter (λ e, e ≠ post) (verifiedPosts d)))
    ∧ ∀ v, v ≠ u →
        snd (awardPoints u amount verifiedPost s) !! v = s !! v.
Proof.
  intros Hs Hok.
  destruct (awardPoints_returns s u d amount verifiedPost Hs Hok)
    as (posts & Hc & Hneg & E).
  destruct (checkVerifiedPost_Ok _ _ _ _ _ _ _ Hc) as [_ Hposts].
  rewrite E. simpl. eexists. split; [reflexivity|]. simpl. split_and!.
  - apply lookup_insert_eq.
  - done.
  - done.
  - done.
  - intros ->. by destruct Hposts as [[_ ->] | (p & [=] & _)].
  - intros post ->.
    destruct Hposts as [[[=] _] | (p & [= <-] & [(? & ? & ->) | (? & ? & ->)])].
    + by left.
    + right. split_and!; [done..| |done].
      rewrite list_elem_of_filter. by intros [? _].
  - intros v Hv. by apply lookup_insert_ne.
Qed.

Lemma awardPoints_effect_witness :
  ∃ d',
    fst (awardPoints 7%N 2%float (Some 9%N) sample_points) = Ok (Some d')
    ∧ snd (awardPoints 7%N 2%float (Some 9%N) sample_points) !! 7%N = Some d'
    ∧ points d' = PrimFloat.add (points sample_doc) 2%float
    ∧ PrimFloat.ltb (points d') PrimFloat.zero = false
    ∧ user d' = user sample_doc
    ∧ (Some 9%N = None → verifiedPosts d' = verifiedPosts sample_doc)
    ∧ (∀ post, Some 9%N = Some post →
         (PrimFloat.leb PrimFloat.zero 2%float = true
          ∧ (post ∉ verifiedPosts sample_doc)
          ∧ verifiedPosts d' = verifiedPosts sample_doc ++ [post])
         ∨ (PrimFloat.ltb 2%float PrimFloat.zero = true
            ∧ post ∈ verifiedPosts sample_doc
            ∧ (post ∉ verifiedPosts d')
            ∧ verifiedPosts d'
              = filter (λ e, e ≠ post) (verifiedPosts sample_doc)))
    ∧ ∀ v, v ≠ 7%N →
        snd (awardPoints 7%N 2%float (Some 9%N) sample_points) !! v
        = sample_points !! v.
Proof.
  apply (awardPoints_effect sample_points 7%N sample_doc 2%float (Some 9%N)).
  - reflexivity.
  - vm_compute. reflexivity.
Defined.

(** X4. [awardPoints] keeps the verified posts of a user free of
    duplicates, whether it returns or throws. *)
Theorem awardPoints_NoDup (s : Points) u d amount verifiedPost d' :
  s !! u = Some d →
  NoDup (verifiedPosts d) →
  snd (awardPoints u amount verifiedPost s) !! u = Some d' →
  NoDup (verifiedPosts d').
Proof.
  intros Hs Hnd Hd'.
  destruct (is_Throw (fst (awardPoints u amount verifiedPost s))) eqn:Hthrow.
  - rewrite (awardPoints_throw_same s u amount verifiedPost Hthrow), Hs in Hd'.
    by injection Hd' as <-.
  - destruct (awardPoints_returns s u d amount verifiedPost Hs Hthrow)
      as (posts & Hc & _ & E).
    rewrite E in Hd'. simpl in Hd'. rewrite lookup_insert_eq in Hd'.
    injection Hd' as <-. simpl.
    destruct (checkVerifiedPost_Ok _ _ _ _ _ _ _ Hc)
      as [_ [[_ ->] | (p & _ & [(_ & Hp & ->) | (_ & _ & ->)])]].
    + done.
    + apply NoDup_app. split_and!; [done| |apply NoDup_singleton].
      intros x Hx ->%list_elem_of_singleton. done.
    + by apply NoDup_filter.
Qed.

Lemma awardPoints_NoDup_witness :
  NoDup (verifiedPosts (mkPointDoc 7%N 7%float [3%N; 9%N])).
Proof.
  apply (awardPoints_NoDup sample_points 7%N sample_doc 2%float (Some 9%N)).
  - reflexivity.
  - refine (bool_decide_unpack _ _). vm_compute. exact I.
  - vm_compute. reflexivity.
Defined.




(** X6. Verifying a post and then withdrawing it brings the verified
    posts back: if [awardPoints] returns for a post with an amount of at
    least zero and then returns for the same post with an amount below
    zero, the verified posts stored at the end are those from before the
    first call. *)
Theorem awardPoints_verify_withdraw (s : Points) u d amount amount' post :
  s !! u = Some d →
  PrimFloat.leb PrimFloat.zero amount = true →
  PrimFloat.ltb amount' PrimFloat.zero = true →
  is_Throw (fst (awardPoints u amount (Some post) s)) = false →
  is_Throw (fst (awardPoints u amount' (Some post)
                   (snd (awardPoints u amount (Some post) s)))) = false →
  ∃ d2,
    snd (awardPoints u amount' (Some post)
           (snd (awardPoints u amount (Some post) s))) !! u = Some d2
    ∧ verifiedPosts d2 = verifiedPosts d
    ∧ points d2 = PrimFloat.add (PrimFloat.add (points d) amount) amount'.
Proof.
  intros Hs Hle Hlt' Hok1.
  destruct (awardPoints_returns s u d amount (Some post) Hs Hok1)
    as (posts & Hc & _ & E).
  destruct (checkVerifiedPost_Ok _ _ _ _ _ _ _ Hc)
    as [_ [[[=] _] | (p & [= <-] & Hposts)]].
  rewrite E. simpl.
  set (d1 := mkPointDoc (user d) (PrimFloat.add (points d) amount) posts).
  assert (Hs1 : (<[u := d1]> s) !! u = Some d1) by apply lookup_insert_eq.
  intros Hok2.
  destruct (awardPoints_returns _ u d1 amount' (Some post) Hs1 Hok2)
    as (posts2 & Hc2 & _ & E2).
  destruct (checkVerifiedPost_Ok _ _ _ _ _ _ _ Hc2)
    as [_ [[[=] _] | (p & [= <-] & Hposts2)]].
  rewrite E2. simpl. eexists. split; [apply lookup_insert_eq|]. simpl.
  split; [|done].
  destruct (zero_compare_cases amount) as [(_ & Hlt & _) | [(? & _) | (? & _)]];
    try congruence.
  destruct (zero_compare_cases amount') as [(_ & ? & _) | [(Hle' & _) | (_ & ? & _)]];
    try congruence.
  destruct Hposts as [(_ & Hnotin & ->) | (? & _)]; [|congruence].
  destruct Hposts2 as [(? & _) | (_ & _ & ->)]; [congruence|].
  simpl. rewrite filter_app, filter_cons_False, filter_nil, app_nil_r
    by (intros H; by apply H).
  apply TrackingFacts.filter_all, Forall_forall. intros x Hx ->. done.
Qed.

Lemma awardPoints_verify_withdraw_witness :
  ∃ d2,
    snd (awardPoints 7%N (-1)%float (Some 9%N)
           (snd (awardPoints 7%N 2%float (Some 9%N) sample_points))) !! 7%N
    = Some d2
    ∧ verifiedPosts d2 = verifiedPosts sample_doc
    ∧ points d2
      = PrimFloat.add (PrimFloat.add (points sample_doc) 2%float) (-1)%float.
Proof.
  apply (awardPoints_verify_withdraw sample_points 7%N sample_doc
           2%float (-1)%float 9%N).
  - reflexivity.
  - vm_compute. reflexivity.
  - vm_compute. reflexivity.
  - vm_compute. reflexivity.
  - vm_compute. reflexivity.
Defined.

End PointingLaws.
